(** * JCRFile: the remote-backed file handle of the JCR/DAM backend

    A shallow embedding of [lib/backends/dam/file.js].  The handle is a
    record that the methods update; the callback-chained asynchronous code
    is written in continuation-passing style over an explicit state (the
    handle, the local temporary directory and the log of external calls);
    what the outside world answers to each HTTP request, [fs.stat] and
    delegate call is an argument of the operation that issues it. *)

From stdpp Require Import gmap strings list pretty.
From Stdlib Require Import ZArith.

Local Open Scope string_scope.
Local Open Scope Z_scope.

(** ** JavaScript values *)

(** The JSON representation of a repository node: [content[k]] is
    [content !! k], an absent key ([undefined]) is [None].  (Arrays are
    left out: the handle reads no key that holds one.) *)
#[warnings="-register-all"]
Inductive jsval : Type :=
| JNull
| JBool (b : bool)
| JNum (z : Z)
| JStr (s : string)
| JObj (o : gmap string jsval).

(** A JavaScript number holding a time value: an integer or [NaN]. *)
Inductive jsnum : Type :=
| Num (z : Z)
| NaN.

(** The result of an expression that may raise a [TypeError]: reading a
    property of [undefined] or [null], or, the file being in strict mode,
    setting one on a value that is not an object. *)
Inductive completion (A : Type) : Type :=
| Normal (a : A)
| TypeError.
Arguments Normal {A} a.
Arguments TypeError {A}.

(** The built-in [Date] object, as far as the handle uses it:
    [new Date(v).getTime()], and [new Date(ms).toISOString()] for the
    modification time of an [fs.Stats], a valid date. *)
Class DateAPI : Type := {
  Date_getTime : option jsval → jsnum;
  Date_toISOString : Z → string
}.

(** [Array.prototype.indexOf] on an array of strings: strict equality,
    so only a string value can be found. *)
Definition strict_equal (x : string) (v : option jsval) : bool :=
  match v with
  | Some (JStr s) => String.eqb x s
  | _ => false
  end.

Fixpoint indexOf_from (arr : list string) (v : option jsval) (i : Z) : Z :=
  match arr with
  | [] => -1
  | x :: arr' => if strict_equal x v then i else indexOf_from arr' v (i + 1)
  end.

Definition indexOf (arr : list string) (v : option jsval) : Z :=
  indexOf_from arr v 0.

(** ** Constants *)

(** Modelled from the spec: [lib/backends/dam/constants.js] is not part of
    the sources at hand; the property names and the primary-type tags are
    the JCR names the specification lists. *)
Module JCR.
Definition JCR_PRIMARYTYPE := "jcr:primaryType".
Definition JCR_CONTENT := "jcr:content".
Definition JCR_CREATED := "jcr:created".
Definition JCR_LASTMODIFIED := "jcr:lastModified".
Definition NT_FILE := "nt:file".
Definition NT_FOLDER := "nt:folder".
Definition SLING_FOLDER := "sling:Folder".
Definition SLING_ORDEREDFOLDER := "sling:OrderedFolder".
Definition DAM_ASSET := "dam:Asset".
End JCR.

(** Modelled from the spec: [lib/constants.js] is not part of the sources
    at hand; the two status codes the handle reports (operation
    unsuccessful, not implemented) carry their NTSTATUS values. *)
Module consts.
Definition STATUS_UNSUCCESSFUL : Z := 0xC0000001.
Definition STATUS_NOT_IMPLEMENTED : Z := 0xC0000002.
End consts.

(** ** Errors *)

(** What a callback receives as its first argument when something went
    wrong: a string, an [Error] object with its message, or an
    [SMBError] built by [new SMBError(status[, message])].  [request] and
    [fs] report [Error] objects and the one string the handle reports
    itself is not empty, so [if (err)] holds of every error. *)
Inductive js_err : Type :=
| EString (s : string)
| EError (message : string)
| SMBError (status : Z) (message : option string).

(** [typeof err === 'string' ? err : err.message] *)
Definition err_text (err : js_err) : option string :=
  match err with
  | EString s => Some s
  | EError m => Some m
  | SMBError _ m => m
  end.

(** ** The share, the local delegate and the handle *)

Record Share : Type := {
  host : string;
  port : N;
  path : string;
  auth : option (string * string)
}.

Record JCRTree : Type := { share : Share }.

(** [fs.Stats], the two fields the handle reads; [st_mtime] is
    [stats.mtime.getTime()]. *)
Record Stats : Type := { st_size : Z; st_mtime : Z }.

(** An [FSFile] instance created by [new FSFile(tmpFilePath, stats)];
    [oid] is the identity of the object, so that two references are the
    same reference exactly when the records are equal. *)
Record FSFile : Type := {
  oid : nat;
  fs_filePath : string;
  fs_stats : Stats
}.

Record Handle : Type := {
  content : gmap string jsval;
  tree : JCRTree;
  fileLength : Z;
  fsFile : option FSFile;
  filePath : string;
  fileName : string
}.

Definition set_fsFile (f : option FSFile) (h : Handle) : Handle :=
  {| content := content h; tree := tree h; fileLength := fileLength h;
     fsFile := f; filePath := filePath h; fileName := fileName h |}.

Definition set_fileLength (n : Z) (h : Handle) : Handle :=
  {| content := content h; tree := tree h; fileLength := n;
     fsFile := fsFile h; filePath := filePath h; fileName := fileName h |}.

Definition set_content (c : gmap string jsval) (h : Handle) : Handle :=
  {| content := c; tree := tree h; fileLength := fileLength h;
     fsFile := fsFile h; filePath := filePath h; fileName := fileName h |}.

(** ** The outside world *)

Inductive Method : Type := GET | POST | DELETE.

Record RequestOptions : Type := {
  url : string;
  method : Method;
  req_auth : option (string * string)
}.

Definition Buffer : Type := list Byte.byte.

Inductive DelegateCall : Type :=
| CallRead (offset length position : Z)
| CallWrite (data : Buffer) (position : Z)
| CallSetLength (length : Z)
| CallDelete.

(** The external calls of the handle, in the order they are issued. *)
Inductive event : Type :=
| EvCreateWriteStream (tmpFilePath : string)
| EvRequest (options : RequestOptions) (body : option string)
| EvStat (p : string)
| EvUnlink (p : string)
| EvDelegate (f : FSFile) (c : DelegateCall).

(** A Node callback [(err, value)]. *)
Inductive result (A : Type) : Type :=
| Err (err : js_err)
| Ok (a : A).
Arguments Err {A} err.
Arguments Ok {A} a.

(** What a streamed GET does: the response arrives with a status code and
    the piped stream finishes, or the request emits ['error']. *)
Inductive get_outcome : Type :=
| GetFinish (statusCode : Z)
| GetError (err : js_err).

Record World : Type := {
  files : gset string;
  trace : list event;
  tmp_counter : nat;
  obj_counter : nat
}.

Record St : Type := { self : Handle; world : World }.

Definition on_self (f : Handle → Handle) (st : St) : St :=
  {| self := f (self st); world := world st |}.

Definition log (e : event) (st : St) : St :=
  {| self := self st;
     world := {| files := files (world st); trace := trace (world st) ++ [e];
                 tmp_counter := tmp_counter (world st);
                 obj_counter := obj_counter (world st) |} |}.

Definition on_files (f : gset string → gset string) (st : St) : St :=
  {| self := self st;
     world := {| files := f (files (world st)); trace := trace (world st);
                 tmp_counter := tmp_counter (world st);
                 obj_counter := obj_counter (world st) |} |}.

(** [tmp.createWriteStream({suffix})]: a fresh file in the temporary
    directory. *)
Definition tmp_createWriteStream (suffix : string) (st : St) : string * St :=
  let p := "/tmp/" +:+ pretty (tmp_counter (world st)) +:+ suffix in
  (p, {| self := self st;
         world := {| files := {[p]} ∪ files (world st);
                     trace := trace (world st) ++ [EvCreateWriteStream p];
                     tmp_counter := S (tmp_counter (world st));
                     obj_counter := obj_counter (world st) |} |}).

(** [fs.unlink(p, function (ignore) { ... })]: the file is removed; the
    callback does not look at what [unlink] reports. *)
Definition fs_unlink {R} (p : string) (k : St → R) (st : St) : R :=
  k (on_files (λ fs, fs ∖ {[p]}) (log (EvUnlink p) st)).

Definition fs_stat {R} (p : string) (answer : result Stats)
    (k : result Stats → St → R) (st : St) : R :=
  k answer (log (EvStat p) st).

(** [request(options, function (err, resp, body) { ... })]; [body] is the
    file piped into the request, if any. *)
Definition request {R} (options : RequestOptions) (body : option string)
    (answer : result (Z * string)) (k : result (Z * string) → St → R) (st : St) : R :=
  k answer (log (EvRequest options body) st).

(** [new FSFile(tmpFilePath, stats)] *)
Definition FSFile_new (tmpFilePath : string) (stats : Stats) (st : St) : FSFile * St :=
  ({| oid := obj_counter (world st); fs_filePath := tmpFilePath; fs_stats := stats |},
   {| self := self st;
      world := {| files := files (world st); trace := trace (world st);
                  tmp_counter := tmp_counter (world st);
                  obj_counter := S (obj_counter (world st)) |} |}).

(** Modelled from the spec: [lib/backends/fs/file.js] is not part of the
    sources at hand.  The delegate's byte-range operations answer whatever
    the local file reports; its [delete], when it succeeds, removes the
    backing file. *)
Definition FSFile_call {R A} (f : FSFile) (c : DelegateCall) (answer : result A)
    (k : result A → St → R) (st : St) : R :=
  k answer (log (EvDelegate f c) st).

Definition FSFile_delete {R} (f : FSFile) (answer : result unit)
    (k : result unit → St → R) (st : St) : R :=
  let st := log (EvDelegate f CallDelete) st in
  match answer with
  | Ok _ => k answer (on_files (λ fs, fs ∖ {[fs_filePath f]}) st)
  | Err _ => k answer st
  end.

(** ** The handle's methods *)

(** The three outcomes the specification names for the classification of
    a primary-type tag. *)
Inductive Kind : Type := File | Directory | Other.

Module JCRFile.

(** The constructor; [File.call(this, filePath)] of the base class sets
    [filePath] and [fileName] ([name] is the file name the base class
    derives from the path). *)
Definition new (filePath : string) (name : string)
    (content : gmap string jsval) (fileLength : Z) (tree : JCRTree) : Handle :=
  {| content := content; tree := tree; fileLength := fileLength;
     fsFile := None; filePath := filePath; fileName := name |}.

(** static helpers *)
Definition isFile (primaryType : option jsval) : bool :=
  indexOf [JCR.NT_FILE; JCR.DAM_ASSET] primaryType >? -1.

Definition isDirectory (primaryType : option jsval) : bool :=
  indexOf [JCR.NT_FOLDER; JCR.SLING_FOLDER; JCR.SLING_ORDEREDFOLDER] primaryType >? -1.

(** The classification of the specification, read off the two helpers. *)
Definition classify (primaryType : option jsval) : Kind :=
  if isFile primaryType then File
  else if isDirectory primaryType then Directory
  else Other.

Module prototype.
Section Accessors.
Context `{DateAPI}.

Definition isFile (this : Handle) : bool :=
  JCRFile.isFile (content this !! JCR.JCR_PRIMARYTYPE).

Definition isDirectory (this : Handle) : bool :=
  JCRFile.isDirectory (content this !! JCR.JCR_PRIMARYTYPE).

Definition isReadOnly (this : Handle) : bool := false.

Definition size (this : Handle) : Z := fileLength this.

Definition allocationSize (this : Handle) : Z :=
  if isFile this then size this else 0.

Definition created (this : Handle) : jsnum :=
  Date_getTime (content this !! JCR.JCR_CREATED).

Definition lastModified (this : Handle) : completion jsnum :=
  if isFile this then
    match content this !! JCR.JCR_CONTENT with
    | Some (JObj o) => Normal (Date_getTime (o !! JCR.JCR_LASTMODIFIED))
    | Some JNull | None => TypeError
    | Some _ => Normal (Date_getTime None)
    end
  else Normal (created this).

Definition setLastModified (ms : Z) (this : Handle) : completion Handle :=
  if isFile this then
    match content this !! JCR.JCR_CONTENT with
    | Some (JObj o) =>
        let o' := <[JCR.JCR_LASTMODIFIED := JStr (Date_toISOString ms)]> o in
        Normal (set_content (<[JCR.JCR_CONTENT := JObj o']> (content this)) this)
    | _ => TypeError
    end
  else Normal this.

Definition lastChanged (this : Handle) : jsnum := created this.

Definition lastAccessed (this : Handle) : completion jsnum := lastModified this.

Definition share_of (this : Handle) : Share := share (tree this).

(** ['http://' + host + ':' + port + base + filePath] *)
Definition url_of (this : Handle) (base : string) : string :=
  "http://" +:+ host (share_of this) +:+ ":" +:+ pretty (port (share_of this))
    +:+ base +:+ filePath this.

Definition unsuccessful (err : js_err) : js_err :=
  SMBError consts.STATUS_UNSUCCESSFUL (err_text err).

(** [get] and [stat] are the answers of the remote GET and of
    [fs.stat], should the call have to fetch. *)
Definition ensureGotLocalCopy {R} (get : get_outcome) (stat : result Stats)
    (cb : result FSFile → St → R) (st : St) : R :=
  match fsFile (self st) with
  | Some f => cb (Ok f) st
  | None =>
      (* spool remote resource to local tmp file *)
      let '(tmpFilePath, st) := tmp_createWriteStream ("-" +:+ fileName (self st)) st in
      let options :=
        {| url := url_of (self st) (path (share_of (self st)));
           method := GET; req_auth := auth (share_of (self st)) |} in
      let st := log (EvRequest options None) st in
      match get with
      | GetFinish statusCode =>
          (* 'response' *)
          let failed := negb (statusCode =? 200) in
          (* 'finish' *)
          if failed then
            fs_unlink tmpFilePath (λ st,
              cb (Err (EString ("failed to spool " +:+ filePath (self st)
                                  +:+ " to " +:+ tmpFilePath))) st) st
          else
            fs_stat tmpFilePath stat (λ r st,
              match r with
              | Err err => cb (Err err) st
              | Ok stats =>
                  (* create FSFile instance and return it *)
                  let '(f, st) := FSFile_new tmpFilePath stats st in
                  let st := on_self (set_fsFile (Some f)) st in
                  cb (Ok f) st
              end) st
      | GetError err =>
          (* 'error' *)
          fs_unlink tmpFilePath (λ st, cb (Err err) st) st
      end
  end.

Definition read {R} (get : get_outcome) (stat : result Stats)
    (local : result (Z * Buffer))
    (buffer : Buffer) (offset length position : Z)
    (cb : result (Z * Buffer) → St → R) (st : St) : R :=
  ensureGotLocalCopy get stat (λ r st,
    match r with
    | Err err => cb (Err (unsuccessful err)) st
    | Ok localFile =>
        FSFile_call localFile (CallRead offset length position) local cb st
    end) st.

Definition write {R} (get : get_outcome) (stat : result Stats)
    (local : result unit) (data : Buffer) (position : Z)
    (cb : result unit → St → R) (st : St) : R :=
  ensureGotLocalCopy get stat (λ r st,
    match r with
    | Err err => cb (Err (unsuccessful err)) st
    | Ok localFile => FSFile_call localFile (CallWrite data position) local cb st
    end) st.

Definition setLength {R} (get : get_outcome) (stat : result Stats)
    (local : result unit) (length : Z)
    (cb : result unit → St → R) (st : St) : R :=
  ensureGotLocalCopy get stat (λ r st,
    match r with
    | Err err => cb (Err (unsuccessful err)) st
    | Ok localFile => FSFile_call localFile (CallSetLength length) local cb st
    end) st.

(** [remote] answers the DELETE request, [local] the delegate's
    delete.  The delegate is given a callback that does nothing, and
    [cb()] does not wait for it. *)
Definition delete {R} (remote : result (Z * string)) (local : result unit)
    (cb : result unit → St → R) (st : St) : R :=
  if String.eqb (path (share_of (self st))) "/content/dam" then
    let options :=
      {| url := url_of (self st) "/api/assets"; method := DELETE;
         req_auth := auth (share_of (self st)) |} in
    request options None remote (λ r st,
      match r with
      | Err err => cb (Err (SMBError consts.STATUS_UNSUCCESSFUL None)) st
      | Ok (statusCode, body) =>
          if negb (statusCode =? 200) then
            cb (Err (SMBError consts.STATUS_UNSUCCESSFUL None)) st
          else
            (* succeeded *)
            let st :=
              match fsFile (self st) with
              | Some f =>
                  (* delete local tmp file *)
                  let st := FSFile_delete f local (λ ignored st, st) st in
                  on_self (set_fsFile None) st
              | None => st
              end in
            cb (Ok tt) st
      end) st
  else
    cb (Err (SMBError consts.STATUS_NOT_IMPLEMENTED None)) st.

(** [get] and [stat0] are there for [ensureGotLocalCopy]; [del] and
    [post] answer the two requests and [stat] the final [fs.stat].
    [uncaught] is where control goes when [setLastModified] throws
    inside the last callback: [cb] is then never called. *)
Definition flush {R} (get : get_outcome) (stat0 : result Stats)
    (del post : result (Z * string)) (stat : result Stats)
    (cb : result unit → St → R) (uncaught : St → R) (st : St) : R :=
  match fsFile (self st) with
  | None =>
      (* no changes, we're done *)
      cb (Ok tt) st
  | Some _ =>
      (* deferred write (spool local tmp file to server) *)
      ensureGotLocalCopy get stat0 (λ r st,
        match r with
        | Err err => cb (Err (unsuccessful err)) st
        | Ok localFile =>
            if String.eqb (path (share_of (self st))) "/content/dam" then
              let url := url_of (self st) "/api/assets" in
              request {| url := url; method := DELETE;
                         req_auth := auth (share_of (self st)) |} None del
                (λ _ st,
                  let options :=
                    {| url := url; method := POST;
                       req_auth := auth (share_of (self st)) |} in
                  request options (Some (fs_filePath localFile)) post (λ r st,
                    match r with
                    | Err err => cb (Err (unsuccessful err)) st
                    | Ok (statusCode, body) =>
                        if negb (statusCode =? 200) then
                          cb (Err (SMBError consts.STATUS_UNSUCCESSFUL None)) st
                        else
                          (* succeeded *)
                          fs_stat (fs_filePath localFile) stat (λ r st,
                            match r with
                            | Err err => cb (Err err) st
                            | Ok stats =>
                                (* update length and lastModified *)
                                let st := on_self (set_fileLength (st_size stats)) st in
                                match setLastModified (st_mtime stats) (self st) with
                                | Normal this' => cb (Ok tt) (on_self (λ _, this') st)
                                | TypeError => uncaught st
                                end
                            end) st
                    end) st) st
            else
              cb (Err (SMBError consts.STATUS_NOT_IMPLEMENTED None)) st
        end) st
  end.

(** [local] answers the delegate's delete, which reports to [cb]
    itself; [this.fsFile = null] has run by then. *)
Definition close {R} (local : result unit)
    (cb : result unit → St → R) (st : St) : R :=
  match fsFile (self st) with
  | Some f =>
      (* delete local tmp file *)
      FSFile_delete f local cb (on_self (set_fsFile None) st)
  | None => cb (Ok tt) st
  end.
End Accessors.
End prototype.

End JCRFile.

Import JCRFile.prototype.

(** ** Running the methods *)

(** The caller's callback: it records what it was called with. *)
Definition run_ensureGotLocalCopy (get : get_outcome) (stat : result Stats)
    (st : St) : result FSFile * St :=
  ensureGotLocalCopy get stat pair st.

Definition run_read (get : get_outcome) (stat : result Stats)
    (local : result (Z * Buffer)) (buffer : Buffer) (offset length position : Z)
    (st : St) : result (Z * Buffer) * St :=
  read get stat local buffer offset length position pair st.

Definition run_write (get : get_outcome) (stat : result Stats)
    (local : result unit) (data : Buffer) (position : Z)
    (st : St) : result unit * St :=
  write get stat local data position pair st.

Definition run_setLength (get : get_outcome) (stat : result Stats)
    (local : result unit) (length : Z) (st : St) : result unit * St :=
  setLength get stat local length pair st.

Definition run_delete (remote : result (Z * string)) (local : result unit)
    (st : St) : result unit * St :=
  delete remote local pair st.

(** [None]: the callback was never called (uncaught [TypeError]). *)
Definition run_flush `{DateAPI} (get : get_outcome) (stat0 : result Stats)
    (del post : result (Z * string)) (stat : result Stats)
    (st : St) : option (result unit) * St :=
  flush get stat0 del post stat (λ r st, (Some r, st)) (λ st, (None, st)) st.

Definition run_close (local : result unit) (st : St) : result unit * St :=
  close local pair st.

(** A fetch environment: the answers to the GET and to [fs.stat]. *)
Definition fetch_env : Type := get_outcome * result Stats.

Definition fetch_ok (e : fetch_env) : bool :=
  match e with
  | (GetFinish statusCode, Ok _) => (statusCode =? 200)
  | _ => false
  end.

(** Sequential calls of [ensureGotLocalCopy], each started when the
    callback of the one before has been called. *)
Fixpoint ensure_seq (envs : list fetch_env) (st : St) : list (result FSFile) * St :=
  match envs with
  | [] => ([], st)
  | (get, stat) :: envs' =>
      let '(r, st) := run_ensureGotLocalCopy get stat st in
      let '(rs, st) := ensure_seq envs' st in
      (r :: rs, st)
  end.

(** One call of a method of the handle, with the answers of the outside
    world to it. *)
Inductive call : Type :=
| Do_ensureGotLocalCopy (get : get_outcome) (stat : result Stats)
| Do_read (get : get_outcome) (stat : result Stats) (local : result (Z * Buffer))
    (buffer : Buffer) (offset length position : Z)
| Do_write (get : get_outcome) (stat : result Stats) (local : result unit)
    (data : Buffer) (position : Z)
| Do_setLength (get : get_outcome) (stat : result Stats) (local : result unit)
    (length : Z)
| Do_delete (remote : result (Z * string)) (local : result unit)
| Do_flush (get : get_outcome) (stat0 : result Stats)
    (del post : result (Z * string)) (stat : result Stats)
| Do_close (local : result unit).

Definition step `{DateAPI} (c : call) (st : St) : St :=
  match c with
  | Do_ensureGotLocalCopy get stat => (run_ensureGotLocalCopy get stat st).2
  | Do_read get stat local buffer offset length position =>
      (run_read get stat local buffer offset length position st).2
  | Do_write get stat local data position =>
      (run_write get stat local data position st).2
  | Do_setLength get stat local length => (run_setLength get stat local length st).2
  | Do_delete remote local => (run_delete remote local st).2
  | Do_flush get stat0 del post stat => (run_flush get stat0 del post stat st).2
  | Do_close local => (run_close local st).2
  end.

Definition run `{DateAPI} (cs : list call) (st : St) : St :=
  foldl (λ st c, step c st) st cs.

(** ** Observations on the log *)

Definition is_fetch (e : event) : bool :=
  match e with
  | EvRequest {| method := GET |} _ => true
  | _ => false
  end.

Fixpoint count (p : event → bool) (t : list event) : nat :=
  match t with
  | [] => 0%nat
  | e :: t' => ((if p e then 1 else 0) + count p t')%nat
  end.

(** The number of remote GET requests issued so far. *)
Definition fetches (st : St) : nat := count is_fetch (trace (world st)).

Definition is_destroy (e : event) : bool :=
  match e with
  | EvDelegate _ CallDelete => true
  | _ => false
  end.

(** The number of staging copies handed to the delegate's delete. *)
Definition destroyed (st : St) : nat := count is_destroy (trace (world st)).

(** The number of staging copies created so far. *)
Definition created_copies (st : St) : nat := obj_counter (world st).

(** One if a staging copy is attached to the handle, zero if not. *)
Definition staged (st : St) : nat :=
  match fsFile (self st) with
  | Some _ => 1%nat
  | None => 0%nat
  end.

(** A handle as the constructor leaves it, in a world where nothing has
    happened yet. *)
Definition initial (this : Handle) : St :=
  {| self := set_fsFile None this;
     world := {| files := ∅; trace := []; tmp_counter := 0; obj_counter := 0 |} |}.

(** ** A reference [Date]

    Date-time strings in the format of [toISOString],
    [YYYY-MM-DDTHH:mm:ss.sssZ], for the years 0 to 9999; any other value
    has no time ([NaN]).  The real [Date] reads more formats; the
    theorems below hold for any [DateAPI]. *)
Module IsoDate.

Definition msPerDay : Z := 86400000.

(** The civil date of a day number (days since 1970-01-01). *)
Definition civil_from_days (z : Z) : Z * Z * Z :=
  let z := z + 719468 in
  let era := z / 146097 in
  let doe := z mod 146097 in
  let yoe := (doe - doe / 1460 + doe / 36524 - doe / 146096) / 365 in
  let doy := doe - (365 * yoe + yoe / 4 - yoe / 100) in
  let mp := (5 * doy + 2) / 153 in
  let d := doy - (153 * mp + 2) / 5 + 1 in
  let m := if mp <? 10 then mp + 3 else mp - 9 in
  let y := yoe + era * 400 in
  (if m <=? 2 then y + 1 else y, m, d).

Definition days_from_civil (y m d : Z) : Z :=
  let y := if m <=? 2 then y - 1 else y in
  let era := y / 400 in
  let yoe := y - era * 400 in
  let doy := (153 * (if m >? 2 then m - 3 else m + 9) + 2) / 5 + d - 1 in
  let doe := yoe * 365 + yoe / 4 - yoe / 100 + doy in
  era * 146097 + doe - 719468.

Fixpoint zeros (n : nat) : string :=
  match n with
  | O => ""
  | S n => "0" +:+ zeros n
  end.

Definition pad (width : nat) (n : Z) : string :=
  let s := pretty (Z.to_N n) in
  zeros (width - String.length s) +:+ s.

Definition toISOString (ms : Z) : string :=
  let '(y, m, d) := civil_from_days (ms / msPerDay) in
  let t := ms mod msPerDay in
  pad 4 y +:+ "-" +:+ pad 2 m +:+ "-" +:+ pad 2 d +:+ "T"
    +:+ pad 2 (t / 3600000) +:+ ":" +:+ pad 2 (t / 60000 mod 60) +:+ ":"
    +:+ pad 2 (t / 1000 mod 60) +:+ "." +:+ pad 3 (t mod 1000) +:+ "Z".

Fixpoint digits (s : string) (acc : Z) : Z :=
  match s with
  | EmptyString => acc
  | String c s' => digits s' (10 * acc + (Z.of_nat (Ascii.nat_of_ascii c) - 48))
  end.

Definition field (s : string) (from len : nat) : Z :=
  digits (String.substring from len s) 0.

Definition decode (s : string) : Z :=
  days_from_civil (field s 0 4) (field s 5 2) (field s 8 2) * msPerDay
    + field s 11 2 * 3600000 + field s 14 2 * 60000 + field s 17 2 * 1000
    + field s 20 3.

Definition getTime (v : option jsval) : jsnum :=
  match v with
  | Some (JStr s) =>
      let ms := decode s in
      if String.eqb (toISOString ms) s then Num ms else NaN
  | Some (JNum z) => Num z
  | _ => NaN
  end.

Definition api : DateAPI :=
  {| Date_getTime := getTime; Date_toISOString := toISOString |}.

End IsoDate.

(** ** Sample handles *)

Definition dam_share : Share :=
  {| host := "localhost"; port := 4502%N; path := "/content/dam";
     auth := Some ("admin", "admin") |}.

Definition dam_tree : JCRTree := {| share := dam_share |}.

Definition asset_content : gmap string jsval :=
  {[ JCR.JCR_PRIMARYTYPE := JStr JCR.DAM_ASSET;
     JCR.JCR_CREATED := JStr "2015-10-01T08:00:00.000Z";
     JCR.JCR_CONTENT :=
       JObj {[ JCR.JCR_LASTMODIFIED := JStr "2015-10-02T12:30:00.000Z" ]} ]}.

Definition asset : Handle :=
  JCRFile.new "/photos/cat.jpg" "cat.jpg" asset_content 2048 dam_tree.

Definition folder_content : gmap string jsval :=
  {[ JCR.JCR_PRIMARYTYPE := JStr JCR.NT_FOLDER;
     JCR.JCR_CREATED := JStr "2015-10-01T08:00:00.000Z" ]}.

Definition folder : Handle :=
  JCRFile.new "/photos" "photos" folder_content 4096 dam_tree.

Definition staged_stats : Stats := {| st_size := 1024; st_mtime := 1446543296789 |}.

(** A streamed GET has failed when it emits an error or answers with a
    status other than 200. *)
Definition fetch_failed (get : get_outcome) : bool :=
  match get with
  | GetError _ => true
  | GetFinish statusCode => negb (statusCode =? 200)
  end.

(** A request has failed when it reports an error or a status other
    than 200. *)
Definition request_failed (r : result (Z * string)) : bool :=
  match r with
  | Err _ => true
  | Ok (statusCode, _) => negb (statusCode =? 200)
  end.

(** [content[JCR.JCR_CONTENT]] is an object. *)
Definition has_content_record (this : Handle) : bool :=
  match content this !! JCR.JCR_CONTENT with
  | Some (JObj _) => true
  | _ => false
  end.

(** The asset and the folder once a first read has fetched them. *)
Definition staged_asset : St :=
  (run_ensureGotLocalCopy (GetFinish 200) (Ok staged_stats) (initial asset)).2.

Definition staged_folder : St :=
  (run_ensureGotLocalCopy (GetFinish 200) (Ok staged_stats) (initial folder)).2.

Definition asset_copy : FSFile :=
  {| oid := 0; fs_filePath := "/tmp/0-cat.jpg"; fs_stats := staged_stats |}.

Definition folder_copy : FSFile :=
  {| oid := 0; fs_filePath := "/tmp/0-photos"; fs_stats := staged_stats |}.

(** Read, close, read again. *)
Definition read_ok : call :=
  Do_read (GetFinish 200) (Ok staged_stats) (Ok (16, [])) [] 0 16 0.

Definition reopen : list call := [read_ok; Do_close (Ok tt); read_ok].

(** The requests of a staged flush under [/content/dam]. *)
Definition flush_delete_request (this : Handle) : event :=
  EvRequest {| url := url_of this "/api/assets"; method := DELETE;
               req_auth := auth (share_of this) |} None.

Definition flush_post_request (this : Handle) (f : FSFile) : event :=
  EvRequest {| url := url_of this "/api/assets"; method := POST;
               req_auth := auth (share_of this) |} (Some (fs_filePath f)).

(** The GET request of a fetch. *)
Definition fetch_request (this : Handle) : event :=
  EvRequest {| url := url_of this (path (share_of this)); method := GET;
               req_auth := auth (share_of this) |} None.

Definition is_Err {A} (r : result A) : Prop :=
  match r with
  | Err _ => True
  | Ok _ => False
  end.

(** Copies created so far = copies destroyed so far + the one staged. *)
Definition balanced (st : St) : Prop :=
  created_copies st = (destroyed st + staged st)%nat.

(** ** More samples and observations *)

(** A share that is not the asset collection. *)
Definition site_share : Share :=
  {| host := "localhost"; port := 4502%N; path := "/content";
     auth := Some ("admin", "admin") |}.

Definition site_tree : JCRTree := {| share := site_share |}.

Definition page_content : gmap string jsval :=
  {[ JCR.JCR_PRIMARYTYPE := JStr JCR.NT_FILE;
     JCR.JCR_CREATED := JStr "2015-10-01T08:00:00.000Z";
     JCR.JCR_CONTENT :=
       JObj {[ JCR.JCR_LASTMODIFIED := JStr "2015-10-02T12:30:00.000Z" ]} ]}.

Definition page : Handle :=
  JCRFile.new "/site/index.html" "index.html" page_content 512 site_tree.

Definition staged_page : St :=
  (run_ensureGotLocalCopy (GetFinish 200) (Ok staged_stats) (initial page)).2.

Definition page_copy : FSFile :=
  {| oid := 0; fs_filePath := "/tmp/0-index.html"; fs_stats := staged_stats |}.

(** A node without a primary type, and a file node without its
    [jcr:content] record. *)
Definition untyped : Handle :=
  JCRFile.new "/misc/x" "x" {[ JCR.JCR_CREATED := JStr "2015-10-01T08:00:00.000Z" ]}
    7 dam_tree.

Definition bare_content : gmap string jsval :=
  {[ JCR.JCR_PRIMARYTYPE := JStr JCR.NT_FILE;
     JCR.JCR_CREATED := JStr "2015-10-01T08:00:00.000Z" ]}.

Definition bare_file : Handle :=
  JCRFile.new "/misc/raw.bin" "raw.bin" bare_content 64 dam_tree.

Definition staged_bare_file : St :=
  (run_ensureGotLocalCopy (GetFinish 200) (Ok staged_stats) (initial bare_file)).2.

Definition bare_copy : FSFile :=
  {| oid := 0; fs_filePath := "/tmp/0-raw.bin"; fs_stats := staged_stats |}.

Definition is_upload (e : event) : bool :=
  match e with
  | EvRequest {| method := POST |} _ | EvRequest {| method := DELETE |} _ => true
  | _ => false
  end.

(** The number of POST and DELETE requests issued so far. *)
Definition uploads (st : St) : nat := count is_upload (trace (world st)).

Definition is_delegate_call (e : event) : bool :=
  match e with
  | EvDelegate _ _ => true
  | _ => false
  end.

(** The number of calls made on local delegates so far. *)
Definition delegate_calls (st : St) : nat := count is_delegate_call (trace (world st)).

Definition is_tmp_create (e : event) : bool :=
  match e with
  | EvCreateWriteStream _ => true
  | _ => false
  end.

(** The number of temporary files created so far. *)
Definition tmp_files_created (st : St) : nat := count is_tmp_create (trace (world st)).

Definition is_flush (c : call) : bool :=
  match c with
  | Do_flush _ _ _ _ _ => true
  | _ => false
  end.

Definition is_flush_or_delete (c : call) : bool :=
  match c with
  | Do_flush _ _ _ _ _ | Do_delete _ _ => true
  | _ => false
  end.

(** [h'] is the same node as [h]: same path, name and share, and the
    same content but for the [jcr:content] record. *)
Definition same_node (h h' : Handle) : Prop :=
  filePath h' = filePath h ∧ fileName h' = fileName h ∧ tree h' = tree h ∧
  ∀ k, k ≠ JCR.JCR_CONTENT → content h' !! k = content h !! k.

(** Every temporary file was created for a GET, and every staging copy
    comes from one. *)
Definition accounted (st : St) : Prop :=
  tmp_files_created st = fetches st ∧ (created_copies st ≤ fetches st)%nat.

(** Write, truncate, read back, close: no flush. *)
Definition edit_without_flush : list call :=
  [Do_write (GetFinish 200) (Ok staged_stats) (Ok tt) [] 0;
   Do_setLength (GetFinish 200) (Ok staged_stats) (Ok tt) 0;
   read_ok;
   Do_close (Ok tt)].

(** * Properties *)

(** ** The reference [Date] on a few dates *)

Example toISOString_epoch : IsoDate.toISOString 0 = "1970-01-01T00:00:00.000Z".
Proof. vm_compute. reflexivity. Qed.

Example toISOString_2015 :
  IsoDate.toISOString 1446543296789 = "2015-11-03T09:34:56.789Z".
Proof. vm_compute. reflexivity. Qed.

Example getTime_2015 :
  IsoDate.getTime (Some (JStr "2015-11-03T09:34:56.789Z")) = Num 1446543296789.
Proof. vm_compute. reflexivity. Qed.

Example getTime_leap :
  IsoDate.getTime (Some (JStr "2016-02-29T23:59:59.999Z")) = Num 1456790399999.
Proof. vm_compute. reflexivity. Qed.

Example getTime_other : IsoDate.getTime (Some (JStr "yesterday")) = NaN.
Proof. vm_compute. reflexivity. Qed.

Example lastModified_asset :
  @lastModified IsoDate.api asset = Normal (Num 1443789000000).
Proof. vm_compute. reflexivity. Qed.

Example lastModified_folder :
  @lastModified IsoDate.api folder = Normal (@created IsoDate.api folder).
Proof. vm_compute. reflexivity. Qed.

(** ** Classification of primary types *)

Lemma indexOf_from_range arr v i :
  0 ≤ i → indexOf_from arr v i = -1 ∨ i ≤ indexOf_from arr v i.
Proof.
  revert i. induction arr as [|x arr IH]; intros i Hi; simpl.
  - by left.
  - destruct (strict_equal x v).
    + right. lia.
    + destruct (IH (i + 1)) as [->|Hge]; [lia | by left | right; lia].
Qed.

Lemma strict_equal_true x v : strict_equal x v = true ↔ v = Some (JStr x).
Proof.
  destruct v as [[| | |s|]|]; simpl; try (split; [discriminate | congruence]).
  destruct (String.eqb_spec x s) as [->|Hne]; split; try done.
  intros [=]. congruence.
Qed.

Lemma indexOf_from_found arr v i :
  0 ≤ i → (indexOf_from arr v i >? -1) = true ↔ ∃ s, v = Some (JStr s) ∧ s ∈ arr.
Proof.
  revert i. induction arr as [|x arr IH]; intros i Hi; simpl.
  - split; [intros H; lia | intros (s & _ & Hin); by apply elem_of_nil in Hin].
  - destruct (strict_equal x v) eqn:Hx.
    + apply strict_equal_true in Hx. split; [|intros _; lia].
      intros _. exists x. split; [done | left].
    + rewrite IH by lia. split.
      * intros (s & Hv & Hin). exists s. split; [done | by right].
      * intros (s & Hv & Hin). exists s. split; [done|].
        apply elem_of_cons in Hin as [->|Hin]; [|done].
        apply strict_equal_true in Hv. congruence.
Qed.

Lemma indexOf_found arr v :
  (indexOf arr v >? -1) = true ↔ ∃ s, v = Some (JStr s) ∧ s ∈ arr.
Proof. apply indexOf_from_found. lia. Qed.

Lemma isFile_tags primaryType :
  JCRFile.isFile primaryType = true ↔
  primaryType = Some (JStr JCR.NT_FILE) ∨ primaryType = Some (JStr JCR.DAM_ASSET).
Proof.
  unfold JCRFile.isFile. rewrite indexOf_found. split.
  - intros (s & -> & Hin).
    repeat (apply elem_of_cons in Hin as [->|Hin]; [tauto|]).
    by apply elem_of_nil in Hin.
  - intros [->| ->]; eexists; (split; [done | repeat constructor]).
Qed.

Lemma isDirectory_tags primaryType :
  JCRFile.isDirectory primaryType = true ↔
  primaryType = Some (JStr JCR.NT_FOLDER) ∨
  primaryType = Some (JStr JCR.SLING_ORDEREDFOLDER) ∨
  primaryType = Some (JStr JCR.SLING_FOLDER).
Proof.
  unfold JCRFile.isDirectory. rewrite indexOf_found. split.
  - intros (s & -> & Hin).
    repeat (apply elem_of_cons in Hin as [->|Hin]; [tauto|]).
    by apply elem_of_nil in Hin.
  - intros [->|[->| ->]]; eexists; (split; [done | repeat constructor]).
Qed.

Lemma file_not_directory primaryType :
  ¬ (JCRFile.isFile primaryType = true ∧ JCRFile.isDirectory primaryType = true).
Proof.
  rewrite isFile_tags, isDirectory_tags.
  intros [[->| ->] [H|[H|H]]]; discriminate H.
Qed.

(** C9: [classify] sends exactly the tags [nt:file] and [dam:Asset] to
    [File], exactly the tags [nt:folder], [sling:OrderedFolder] and
    [sling:Folder] to [Directory] and every other value to [Other]; the two
    sets of tags are disjoint, so that [isFile()] and [isDirectory()] are
    never both true of a handle. *)
Theorem classify_tags (primaryType : option jsval) (this : Handle) :
  (JCRFile.classify primaryType = File ↔
     primaryType = Some (JStr "nt:file") ∨ primaryType = Some (JStr "dam:Asset")) ∧
  (JCRFile.classify primaryType = Directory ↔
     primaryType = Some (JStr "nt:folder") ∨
     primaryType = Some (JStr "sling:OrderedFolder") ∨
     primaryType = Some (JStr "sling:Folder")) ∧
  (JCRFile.classify primaryType = Other ↔
     ¬ (primaryType = Some (JStr "nt:file") ∨ primaryType = Some (JStr "dam:Asset")) ∧
     ¬ (primaryType = Some (JStr "nt:folder") ∨
        primaryType = Some (JStr "sling:OrderedFolder") ∨
        primaryType = Some (JStr "sling:Folder"))) ∧
  (JCRFile.isFile primaryType = (if JCRFile.classify primaryType is File then true else false)) ∧
  (JCRFile.isDirectory primaryType =
     (if JCRFile.classify primaryType is Directory then true else false)) ∧
  ¬ (isFile this = true ∧ isDirectory this = true).
Proof.
  pose proof (isFile_tags primaryType) as HF.
  pose proof (isDirectory_tags primaryType) as HD.
  pose proof (file_not_directory primaryType) as HFD.
  unfold JCR.NT_FILE, JCR.DAM_ASSET, JCR.NT_FOLDER, JCR.SLING_ORDEREDFOLDER,
    JCR.SLING_FOLDER in HF, HD.
  unfold JCRFile.classify.
  destruct (JCRFile.isFile primaryType) eqn:EF;
    destruct (JCRFile.isDirectory primaryType) eqn:ED;
    try (exfalso; by apply HFD);
    (repeat split; try done; try (intros; tauto); try (intros; intuition congruence));
    try (intros [? ?]; apply (file_not_directory (content this !! JCR.JCR_PRIMARYTYPE));
         by split).
Qed.

(** ** Size *)

(** C5, as stated, fails: [size()] of a directory-typed handle is its
    [fileLength], here 4096 and not 0. *)
Lemma size_of_directory_not_zero :
  isDirectory folder = true ∧ isFile folder = false ∧ size folder = 4096 ∧ size folder ≠ 0.
Proof. vm_compute. repeat split; discriminate. Qed.

(** C5, amended: [size()] is the last known byte length ([fileLength]) of
    every handle, whatever its type; it is [allocationSize()] that is
    [size()] for a file-typed handle and 0 for any other, directories
    among them. *)
Theorem size_is_fileLength (this : Handle) :
  size this = fileLength this ∧
  allocationSize this = (if isFile this then fileLength this else 0) ∧
  (if isDirectory this then allocationSize this else 0) = 0.
Proof.
  split; [reflexivity|]. split; [reflexivity|].
  destruct (isDirectory this) eqn:ED; [|reflexivity].
  unfold allocationSize. destruct (isFile this) eqn:EF; [|reflexivity].
  destruct (file_not_directory (content this !! JCR.JCR_PRIMARYTYPE)). by split.
Qed.

(** ** Synchronization: [flush()] *)

Lemma ensureGotLocalCopy_cached {R} get stat (cb : result FSFile → St → R) st f :
  fsFile (self st) = Some f →
  ensureGotLocalCopy get stat cb st = cb (Ok f) st.
Proof. intros Hf. unfold ensureGotLocalCopy. by rewrite Hf. Qed.

Lemma flush_unstaged `{DateAPI} {R} get stat0 del post stat
    (cb : result unit → St → R) uncaught st :
  fsFile (self st) = None →
  flush get stat0 del post stat cb uncaught st = cb (Ok tt) st.
Proof. intros Hf. unfold flush. by rewrite Hf. Qed.

Lemma flush_staged `{DateAPI} {R} get stat0 del post stat
    (cb : result unit → St → R) uncaught st f :
  fsFile (self st) = Some f →
  path (share_of (self st)) = "/content/dam" →
  flush get stat0 del post stat cb uncaught st =
    let st2 := log (flush_post_request (self st) f) (log (flush_delete_request (self st)) st) in
    match post with
    | Err err => cb (Err (unsuccessful err)) st2
    | Ok (statusCode, body) =>
        if negb (statusCode =? 200) then
          cb (Err (SMBError consts.STATUS_UNSUCCESSFUL None)) st2
        else
          let st3 := log (EvStat (fs_filePath f)) st2 in
          match stat with
          | Err err => cb (Err err) st3
          | Ok stats =>
              let st4 := on_self (set_fileLength (st_size stats)) st3 in
              match setLastModified (st_mtime stats) (self st4) with
              | Normal this' => cb (Ok tt) (on_self (λ _, this') st4)
              | TypeError => uncaught st4
              end
          end
    end.
Proof.
  intros Hf Hp. unfold flush. rewrite Hf.
  rewrite (ensureGotLocalCopy_cached _ _ _ _ f Hf). rewrite Hp. simpl.
  unfold request, fs_stat. reflexivity.
Qed.

Lemma trace_log e st : trace (world (log e st)) = (trace (world st) ++ [e])%list.
Proof. reflexivity. Qed.

Lemma self_log e st : self (log e st) = self st.
Proof. reflexivity. Qed.

(** C3: a flush of a staged handle under [/content/dam] issues the DELETE
    to the asset URL and then the POST to the same URL, whatever the DELETE
    answers: its error or status changes nothing of what follows. *)
Theorem flush_delete_then_post `{DateAPI} get stat0 del post stat st f :
  fsFile (self st) = Some f →
  path (share_of (self st)) = "/content/dam" →
  (∃ rest, trace (world (run_flush get stat0 del post stat st).2) =
     (trace (world st) ++
       EvRequest {| url := url_of (self st) "/api/assets"; method := DELETE;
                    req_auth := auth (share_of (self st)) |} None ::
       EvRequest {| url := url_of (self st) "/api/assets"; method := POST;
                    req_auth := auth (share_of (self st)) |} (Some (fs_filePath f)) ::
       rest)%list) ∧
  (∀ del', run_flush get stat0 del' post stat st = run_flush get stat0 del post stat st).
Proof.
  intros Hf Hp. split.
  - unfold run_flush. rewrite (flush_staged _ _ _ _ _ _ _ _ f Hf Hp). cbv zeta.
    fold (flush_delete_request (self st)). fold (flush_post_request (self st) f).
    destruct post as [err|[statusCode body]].
    + exists []. simpl. by rewrite <- app_assoc.
    + destruct (negb (statusCode =? 200)).
      * exists []. simpl. by rewrite <- app_assoc.
      * destruct stat as [err|stats].
        -- eexists. simpl. rewrite <- !app_assoc. reflexivity.
        -- destruct (setLastModified _ _); eexists; simpl;
             rewrite <- !app_assoc; reflexivity.
  - intros del'. unfold run_flush.
    by rewrite !(flush_staged _ _ _ _ _ _ _ _ f Hf Hp).
Qed.

Lemma flush_delete_then_post_witness :
  ∃ rest, trace (world (@run_flush IsoDate.api (GetFinish 200) (Ok staged_stats)
                          (Err (EError "ECONNRESET")) (Ok (200, "")) (Ok staged_stats)
                          staged_asset).2) =
    (trace (world staged_asset) ++
      EvRequest {| url := "http://localhost:4502/api/assets/photos/cat.jpg";
                   method := DELETE; req_auth := Some ("admin", "admin") |} None ::
      EvRequest {| url := "http://localhost:4502/api/assets/photos/cat.jpg";
                   method := POST; req_auth := Some ("admin", "admin") |}
                (Some "/tmp/0-cat.jpg") :: rest)%list.
Proof.
  exact (proj1 (@flush_delete_then_post IsoDate.api (GetFinish 200) (Ok staged_stats)
                  (Err (EError "ECONNRESET")) (Ok (200, "")) (Ok staged_stats)
                  staged_asset asset_copy eq_refl eq_refl)).
Defined.

(** C4: when the create step of a flush fails (the POST reports an error
    or a status other than 200), the caller gets an [SMBError] with status
    [STATUS_UNSUCCESSFUL] and the handle is what it was before the call:
    same byte length, same last-modified time. *)
Theorem flush_create_failure `{DateAPI} get stat0 del post stat st f :
  fsFile (self st) = Some f →
  path (share_of (self st)) = "/content/dam" →
  request_failed post = true →
  ∃ message st',
    run_flush get stat0 del post stat st =
      (Some (Err (SMBError consts.STATUS_UNSUCCESSFUL message)), st') ∧
    self st' = self st ∧
    size (self st') = size (self st) ∧
    lastModified (self st') = lastModified (self st).
Proof.
  intros Hf Hp Hfail. unfold run_flush.
  rewrite (flush_staged _ _ _ _ _ _ _ _ f Hf Hp). cbv zeta.
  destruct post as [err|[statusCode body]]; simpl in Hfail.
  - eexists _, _. split; [reflexivity|]. by rewrite !self_log.
  - rewrite Hfail. eexists _, _. split; [reflexivity|]. by rewrite !self_log.
Qed.

Lemma flush_create_failure_witness :
  ∃ message st',
    @run_flush IsoDate.api (GetFinish 200) (Ok staged_stats) (Ok (200, ""))
      (Ok (500, "Internal Server Error")) (Ok staged_stats) staged_asset =
      (Some (Err (SMBError consts.STATUS_UNSUCCESSFUL message)), st') ∧
    self st' = self staged_asset ∧
    size (self st') = size (self staged_asset) ∧
    @lastModified IsoDate.api (self st') = @lastModified IsoDate.api (self staged_asset).
Proof.
  exact (@flush_create_failure IsoDate.api (GetFinish 200) (Ok staged_stats)
           (Ok (200, "")) (Ok (500, "Internal Server Error")) (Ok staged_stats)
           staged_asset asset_copy eq_refl eq_refl eq_refl).
Defined.

Lemma isFile_set_fileLength n this : isFile (set_fileLength n this) = isFile this.
Proof. reflexivity. Qed.

(** What [setLastModified] leaves in a file-typed handle is what
    [lastModified] reads back. *)
Lemma lastModified_setLastModified `{DateAPI} ms this :
  isFile this = true →
  has_content_record this = true →
  ∃ this', setLastModified ms this = Normal this' ∧
    fileLength this' = fileLength this ∧
    fsFile this' = fsFile this ∧
    lastModified this' = Normal (Date_getTime (Some (JStr (Date_toISOString ms)))).
Proof.
  intros HF Hrec. unfold setLastModified, has_content_record in *. rewrite HF.
  destruct (content this !! JCR.JCR_CONTENT) as [[| | | |o]|] eqn:Hc; try discriminate.
  eexists. split; [reflexivity|]. split; [reflexivity|]. split; [reflexivity|].
  unfold lastModified.
  assert (isFile (set_content (<[JCR.JCR_CONTENT:=JObj
            (<[JCR.JCR_LASTMODIFIED:=JStr (Date_toISOString ms)]> o)]> (content this)) this)
          = true) as ->.
  { unfold isFile in *. simpl. rewrite lookup_insert_ne; [done|discriminate]. }
  simpl. rewrite lookup_insert_eq. by rewrite lookup_insert_eq.
Qed.

Lemma setLastModified_fileLength `{DateAPI} ms this this' :
  setLastModified ms this = Normal this' → fileLength this' = fileLength this.
Proof.
  unfold setLastModified. destruct (isFile this); [|by intros [= <-]].
  destruct (content this !! JCR.JCR_CONTENT) as [[]|]; try discriminate.
  by intros [= <-].
Qed.

Lemma setLastModified_not_file `{DateAPI} ms this :
  isFile this = false → setLastModified ms this = Normal this.
Proof. intros HF. unfold setLastModified. by rewrite HF. Qed.

(** C2, as stated, fails: after a successful flush of a staged handle that
    is not file-typed, [lastModified()] is still the creation time
    (2015-10-01), not the modification time of the staged file
    (2015-11-03). *)
Lemma flush_folder_keeps_lastModified :
  let r := @run_flush IsoDate.api (GetFinish 200) (Ok staged_stats) (Ok (200, ""))
             (Ok (200, "")) (Ok staged_stats) staged_folder in
  fsFile (self staged_folder) = Some folder_copy ∧
  path (share_of (self staged_folder)) = "/content/dam" ∧
  r.1 = Some (Ok tt) ∧
  st_mtime staged_stats = 1446543296789 ∧
  @lastModified IsoDate.api (self r.2) = Normal (Num 1443686400000) ∧
  @lastModified IsoDate.api (self r.2) ≠ Normal (Num (st_mtime staged_stats)).
Proof. vm_compute. repeat split; discriminate. Qed.

(** C2, amended: after a flush of a staged handle under [/content/dam]
    whose POST answers 200 and whose [fs.stat] succeeds, [size()] is the
    byte count of that stat; for a file-typed handle (with its
    [jcr:content] record) the flush reports success and [lastModified()]
    is the time of the ISO string written from the stat's modification
    time, that is this very time whenever [Date] reads back what
    [toISOString] wrote; for a handle that is not file-typed the flush
    reports success and [lastModified()] stays [created()]. *)
Theorem flush_success_metadata `{DateAPI} get stat0 del body stats st f :
  fsFile (self st) = Some f →
  path (share_of (self st)) = "/content/dam" →
  let r := run_flush get stat0 del (Ok (200, body)) (Ok stats) st in
  size (self r.2) = st_size stats ∧
  (isFile (self st) = true → has_content_record (self st) = true →
     r.1 = Some (Ok tt) ∧
     lastModified (self r.2) =
       Normal (Date_getTime (Some (JStr (Date_toISOString (st_mtime stats)))))) ∧
  (isFile (self st) = true → has_content_record (self st) = true →
     Date_getTime (Some (JStr (Date_toISOString (st_mtime stats)))) = Num (st_mtime stats) →
     lastModified (self r.2) = Normal (Num (st_mtime stats))) ∧
  (isFile (self st) = false →
     r.1 = Some (Ok tt) ∧ lastModified (self r.2) = Normal (created (self st))).
Proof.
  intros Hf Hp r. subst r. unfold run_flush.
  rewrite (flush_staged _ _ _ _ _ _ _ _ f Hf Hp). cbv zeta. simpl negb. cbv iota.
  set (st4 := on_self (set_fileLength (st_size stats)) (log _ (log _ (log _ st)))).
  change (self st4) with (set_fileLength (st_size stats) (self st)).
  split; [|split; [|split]].
  - destruct (setLastModified _ _) as [this'|] eqn:Hset; [|reflexivity].
    by apply setLastModified_fileLength in Hset.
  - intros HF Hrec.
    destruct (lastModified_setLastModified (st_mtime stats)
                (set_fileLength (st_size stats) (self st)))
      as (this' & -> & _ & _ & Hlm); done.
  - intros HF Hrec Hrt.
    destruct (lastModified_setLastModified (st_mtime stats)
                (set_fileLength (st_size stats) (self st)))
      as (this' & -> & _ & _ & Hlm); [done..|].
    simpl. by rewrite Hlm, Hrt.
  - intros HF. rewrite setLastModified_not_file by done. simpl. split; [done|].
    unfold lastModified. by rewrite isFile_set_fileLength, HF.
Qed.

Lemma flush_success_metadata_witness :
  let r := @run_flush IsoDate.api (GetFinish 200) (Ok staged_stats)
             (Err (EError "ECONNRESET")) (Ok (200, "")) (Ok staged_stats) staged_asset in
  r.1 = Some (Ok tt) ∧
  size (self r.2) = 1024 ∧
  @lastModified IsoDate.api (self r.2) = Normal (Num 1446543296789).
Proof.
  destruct (@flush_success_metadata IsoDate.api (GetFinish 200) (Ok staged_stats)
              (Err (EError "ECONNRESET")) "" staged_stats staged_asset asset_copy
              eq_refl eq_refl) as (Hsize & Hfile & Htime & _).
  split; [exact (proj1 (Hfile eq_refl eq_refl))|].
  split; [exact Hsize|].
  exact (Htime eq_refl eq_refl eq_refl).
Defined.

(** ** Deletion *)

(** C10: when the remote DELETE of a handle under [/content/dam] answers
    200, [delete()] reports success and drops the staging copy whatever the
    delegate's own delete answers; what the caller is told never depends on
    the delegate. *)
Theorem delete_reports_remote_outcome (local : result unit) (body : string) (st : St) :
  path (share_of (self st)) = "/content/dam" →
  (run_delete (Ok (200, body)) local st).1 = Ok tt ∧
  fsFile (self (run_delete (Ok (200, body)) local st).2) = None ∧
  (∀ remote local', (run_delete remote local' st).1 = (run_delete remote local st).1).
Proof.
  intros Hp. unfold run_delete, delete. rewrite Hp. simpl.
  unfold request. rewrite self_log. split; [|split].
  - reflexivity.
  - simpl. destruct (fsFile (self st)) as [f|] eqn:Hf; [|done].
    unfold FSFile_delete. by destruct local.
  - intros [err|[statusCode body']] local'; [done|].
    by destruct (negb (statusCode =? 200)).
Qed.

Lemma delete_reports_remote_outcome_witness :
  (run_delete (Ok (200, "")) (Err (EError "EBUSY")) staged_asset).1 = Ok tt ∧
  fsFile (self (run_delete (Ok (200, "")) (Err (EError "EBUSY")) staged_asset).2) = None ∧
  (∀ remote local',
     (run_delete remote local' staged_asset).1 =
     (run_delete remote (Err (EError "EBUSY")) staged_asset).1).
Proof.
  exact (delete_reports_remote_outcome (Err (EError "EBUSY")) "" staged_asset eq_refl).
Defined.

(** ** Byte I/O *)

(** Whatever the caller's callback, [ensureGotLocalCopy] calls it once,
    with the result and in the state that [run_ensureGotLocalCopy] gives. *)
Lemma ensureGotLocalCopy_run {R} get stat (cb : result FSFile → St → R) st :
  ensureGotLocalCopy get stat cb st =
  cb (run_ensureGotLocalCopy get stat st).1 (run_ensureGotLocalCopy get stat st).2.
Proof.
  unfold run_ensureGotLocalCopy, ensureGotLocalCopy.
  destruct (fsFile (self st)); [done|]. simpl.
  destruct get as [statusCode|err]; [|done].
  destruct (negb (statusCode =? 200)); [done|].
  unfold fs_stat. by destruct stat.
Qed.

(** C8, as stated, fails: a failure of the delegate's byte-range read
    reaches the caller as the delegate reported it, here an error whose
    status (0xC0000022) is not [STATUS_UNSUCCESSFUL]. *)
Lemma read_forwards_delegate_error :
  let denied := SMBError 0xC0000022 (Some "EACCES: permission denied") in
  (run_read (GetFinish 200) (Ok staged_stats) (Err denied) [] 0 16 0 (initial asset)).1
    = Err denied ∧
  (∀ message, denied ≠ SMBError consts.STATUS_UNSUCCESSFUL message).
Proof. split; [reflexivity | discriminate]. Qed.

(** C8, amended: a failure of [ensureGotLocalCopy] (of the fetch or of the
    stat that follows it) reaches the caller of [read()] and [write()] as
    an [SMBError] with status [STATUS_UNSUCCESSFUL] and the text of the
    failure; once the local copy is there, the caller gets the answer of
    the delegate's byte-range operation as the delegate gave it, success or
    failure. *)
Theorem read_write_errors get stat st
    (localr : result (Z * Buffer)) (localw : result unit)
    (buffer data : Buffer) (offset length position : Z) :
  (run_read get stat localr buffer offset length position st).1 =
    match (run_ensureGotLocalCopy get stat st).1 with
    | Err err => Err (SMBError consts.STATUS_UNSUCCESSFUL (err_text err))
    | Ok _ => localr
    end ∧
  (run_write get stat localw data position st).1 =
    match (run_ensureGotLocalCopy get stat st).1 with
    | Err err => Err (SMBError consts.STATUS_UNSUCCESSFUL (err_text err))
    | Ok _ => localw
    end.
Proof.
  unfold run_read, read, run_write, write. rewrite !ensureGotLocalCopy_run.
  by destruct (run_ensureGotLocalCopy get stat st).1.
Qed.

(** ** The staging cache: [ensureGotLocalCopy] *)

Lemma count_app p t1 t2 : count p (t1 ++ t2) = (count p t1 + count p t2)%nat.
Proof. induction t1 as [|e t1 IH]; simpl; [done|]. rewrite IH. lia. Qed.

(** A call on an unmaterialized handle issues one GET, whatever follows. *)
Lemma ensure_unmaterialized_fetches get stat st :
  fsFile (self st) = None →
  fetches (run_ensureGotLocalCopy get stat st).2 = S (fetches st).
Proof.
  intros Hf. unfold run_ensureGotLocalCopy, ensureGotLocalCopy. rewrite Hf. simpl.
  destruct get as [statusCode|err];
    [destruct (negb (statusCode =? 200)); [|destruct stat]|];
    unfold fetches; simpl; rewrite !count_app; simpl; lia.
Qed.

Lemma ensure_success get stat st :
  fsFile (self st) = None →
  fetch_ok (get, stat) = true →
  ∃ f, (run_ensureGotLocalCopy get stat st).1 = Ok f ∧
       fsFile (self (run_ensureGotLocalCopy get stat st).2) = Some f ∧
       oid f = created_copies st ∧
       created_copies (run_ensureGotLocalCopy get stat st).2 = S (created_copies st).
Proof.
  intros Hf Hok. unfold run_ensureGotLocalCopy, ensureGotLocalCopy. rewrite Hf. simpl.
  destruct get as [statusCode|err]; [|done]. destruct stat as [err|stats]; [done|].
  simpl in Hok. rewrite Hok. simpl. eexists. by repeat split.
Qed.

Lemma ensure_failure get stat st :
  fsFile (self st) = None →
  fetch_ok (get, stat) = false →
  ∃ err, (run_ensureGotLocalCopy get stat st).1 = Err err ∧
         self (run_ensureGotLocalCopy get stat st).2 = self st.
Proof.
  intros Hf Hok. unfold run_ensureGotLocalCopy, ensureGotLocalCopy. rewrite Hf. simpl.
  destruct get as [statusCode|err]; [|by eexists].
  destruct (negb (statusCode =? 200)) eqn:Hs; [by eexists|].
  destruct stat as [err|stats]; [by eexists|].
  simpl in Hok. rewrite Hok in Hs. done.
Qed.

Lemma not_elem_of_unlinked (p : string) (fs : gset string) : p ∉ fs ∖ {[p]}.
Proof. rewrite elem_of_difference, elem_of_singleton. intros [_ Hne]. by apply Hne. Qed.

(** C7: a fetch that fails (status other than 200, or transport error)
    unlinks its temporary file before the caller's callback is called with
    the error, leaves the handle as it was (nothing is memoized), and the
    next call fetches again: it issues a new GET and, when that one
    succeeds, returns the new local copy. *)
Theorem failed_fetch_cleans_up_and_retries {R} get stat
    (cb : result FSFile → St → R) (st : St) :
  fsFile (self st) = None →
  fetch_failed get = true →
  ∃ err tmpFilePath st',
    ensureGotLocalCopy get stat cb st = cb (Err err) st' ∧
    (trace (world st') =
       (trace (world st) ++
          [EvCreateWriteStream tmpFilePath; fetch_request (self st);
           EvUnlink tmpFilePath])%list) ∧
    (tmpFilePath ∉ files (world st')) ∧
    self st' = self st ∧
    fsFile (self st') = None ∧
    (∀ get' stat',
       fetches (run_ensureGotLocalCopy get' stat' st').2 = S (fetches st') ∧
       (fetch_ok (get', stat') = true →
        ∃ f, (run_ensureGotLocalCopy get' stat' st').1 = Ok f ∧
             fsFile (self (run_ensureGotLocalCopy get' stat' st').2) = Some f)).
Proof.
  intros Hf Hfail.
  assert (∀ st', self st' = self st →
            ∀ get' stat',
              fetches (run_ensureGotLocalCopy get' stat' st').2 = S (fetches st') ∧
              (fetch_ok (get', stat') = true →
               ∃ f, (run_ensureGotLocalCopy get' stat' st').1 = Ok f ∧
                    fsFile (self (run_ensureGotLocalCopy get' stat' st').2) = Some f))
    as Hretry.
  { intros st' Hself get' stat'.
    assert (fsFile (self st') = None) as Hf' by (by rewrite Hself).
    split; [by apply ensure_unmaterialized_fetches|].
    intros Hok. destruct (ensure_success get' stat' st' Hf' Hok) as (f & ? & ? & _).
    by exists f. }
  unfold ensureGotLocalCopy. rewrite Hf. simpl.
  destruct get as [statusCode|err]; simpl in Hfail.
  - rewrite Hfail. unfold fs_unlink.
    eexists _, _, _. split; [reflexivity|]. simpl. rewrite <- !app_assoc. simpl.
    split; [reflexivity|]. split; [apply not_elem_of_unlinked|]. split; [reflexivity|].
    split; [exact Hf|]. by apply Hretry.
  - unfold fs_unlink.
    eexists _, _, _. split; [reflexivity|]. simpl. rewrite <- !app_assoc. simpl.
    split; [reflexivity|]. split; [apply not_elem_of_unlinked|]. split; [reflexivity|].
    split; [exact Hf|]. by apply Hretry.
Qed.

Lemma failed_fetch_cleans_up_and_retries_witness :
  ∃ err tmpFilePath st',
    ensureGotLocalCopy (GetFinish 404) (Ok staged_stats) pair (initial asset)
      = (Err err, st') ∧
    (trace (world st') =
       (trace (world (initial asset)) ++
          [EvCreateWriteStream tmpFilePath; fetch_request (self (initial asset));
           EvUnlink tmpFilePath])%list) ∧
    (tmpFilePath ∉ files (world st')) ∧
    self st' = self (initial asset) ∧
    fsFile (self st') = None ∧
    (∀ get' stat',
       fetches (run_ensureGotLocalCopy get' stat' st').2 = S (fetches st') ∧
       (fetch_ok (get', stat') = true →
        ∃ f, (run_ensureGotLocalCopy get' stat' st').1 = Ok f ∧
             fsFile (self (run_ensureGotLocalCopy get' stat' st').2) = Some f)).
Proof.
  exact (failed_fetch_cleans_up_and_retries (GetFinish 404) (Ok staged_stats) pair
           (initial asset) eq_refl eq_refl).
Defined.

Example fetch_404_then_200 :
  let r1 := run_ensureGotLocalCopy (GetFinish 404) (Ok staged_stats) (initial asset) in
  let r2 := run_ensureGotLocalCopy (GetFinish 200) (Ok staged_stats) r1.2 in
  r1.1 = Err (EString "failed to spool /photos/cat.jpg to /tmp/0-cat.jpg") ∧
  elements (files (world r1.2)) = [] ∧
  r2.1 = Ok {| oid := 0; fs_filePath := "/tmp/1-cat.jpg"; fs_stats := staged_stats |} ∧
  elements (files (world r2.2)) = ["/tmp/1-cat.jpg"].
Proof. vm_compute. repeat split. Qed.

Example fetch_transport_error :
  let r := run_ensureGotLocalCopy (GetError (EError "ECONNRESET")) (Ok staged_stats)
             (initial asset) in
  r.1 = Err (EError "ECONNRESET") ∧ elements (files (world r.2)) = [] ∧
  fsFile (self r.2) = None.
Proof. vm_compute. repeat split. Qed.

Lemma ensure_seq_cached envs st f :
  fsFile (self st) = Some f →
  ensure_seq envs st = (replicate (length envs) (Ok f), st).
Proof.
  intros Hf. induction envs as [|[get stat] envs IH]; [done|]. simpl.
  unfold run_ensureGotLocalCopy. rewrite (ensureGotLocalCopy_cached _ _ _ _ f Hf).
  by rewrite IH.
Qed.

Lemma ensure_seq_cons get stat envs st :
  ensure_seq ((get, stat) :: envs) st =
  ((run_ensureGotLocalCopy get stat st).1 ::
     (ensure_seq envs (run_ensureGotLocalCopy get stat st).2).1,
   (ensure_seq envs (run_ensureGotLocalCopy get stat st).2).2).
Proof.
  simpl. destruct (run_ensureGotLocalCopy get stat st) as [r st1]. simpl.
  by destruct (ensure_seq envs st1).
Qed.

(** C1, as stated, fails: two sequential calls of which the first fetch
    is answered 404 issue two GET requests, and the second call does not
    return what the first returned. *)
Lemma two_calls_two_fetches :
  let r := ensure_seq [(GetFinish 404, Ok staged_stats); (GetFinish 200, Ok staged_stats)]
             (initial asset) in
  fetches (initial asset) = 0%nat ∧
  fetches r.2 = 2%nat ∧
  r.1 = [Err (EString "failed to spool /photos/cat.jpg to /tmp/0-cat.jpg");
         Ok {| oid := 0; fs_filePath := "/tmp/1-cat.jpg"; fs_stats := staged_stats |}].
Proof. vm_compute. repeat split. Qed.

(** C1, amended: of N sequential calls on an unmaterialized handle, each
    call up to and including the first whose fetch succeeds issues one GET
    and no call after it issues any (so exactly one GET when the first call
    succeeds); the calls before it report errors, and every call from it on
    returns the same cached delegate. *)
Theorem ensure_seq_fetches_once (fails : list fetch_env) (e : fetch_env)
    (rest : list fetch_env) (st : St) :
  fsFile (self st) = None →
  Forall (λ e', fetch_ok e' = false) fails →
  fetch_ok e = true →
  ∃ errs f,
    (ensure_seq (fails ++ e :: rest) st).1
      = (errs ++ replicate (S (length rest)) (Ok f))%list ∧
    length errs = length fails ∧
    Forall is_Err errs ∧
    fetches (ensure_seq (fails ++ e :: rest) st).2 = (fetches st + length fails + 1)%nat ∧
    fsFile (self (ensure_seq (fails ++ e :: rest) st).2) = Some f.
Proof.
  intros Hf Hfails Hok. revert st Hf.
  induction Hfails as [|[get stat] fails Hfail _ IH]; intros st Hf.
  - destruct e as [get stat]. simpl app. rewrite ensure_seq_cons.
    destruct (ensure_success get stat st Hf Hok) as (f & Hr & Hf' & _).
    pose proof (ensure_unmaterialized_fetches get stat st Hf) as Hn.
    rewrite (ensure_seq_cached rest _ f Hf'). simpl. rewrite Hr.
    exists [], f. repeat split; [done | rewrite Hn; lia | done].
  - simpl app. rewrite ensure_seq_cons.
    destruct (ensure_failure get stat st Hf Hfail) as (err & Hr & Hself).
    pose proof (ensure_unmaterialized_fetches get stat st Hf) as Hn.
    destruct (IH (run_ensureGotLocalCopy get stat st).2) as (errs & f & H1 & H2 & H3 & H4 & H5).
    { by rewrite Hself. }
    exists (Err err :: errs), f. simpl. rewrite Hr, H1.
    repeat split; [by rewrite H2 | by constructor | rewrite H4, Hn; lia | done].
Qed.

Lemma ensure_seq_fetches_once_witness :
  ∃ errs f,
    (ensure_seq ([(GetFinish 404, Ok staged_stats)] ++
                 (GetFinish 200, Ok staged_stats) ::
                 [(GetError (EError "ECONNRESET"), Ok staged_stats);
                  (GetFinish 500, Ok staged_stats)]) (initial asset)).1
      = (errs ++ replicate 3 (Ok f))%list ∧
    length errs = 1%nat ∧
    Forall is_Err errs ∧
    fetches (ensure_seq ([(GetFinish 404, Ok staged_stats)] ++
                 (GetFinish 200, Ok staged_stats) ::
                 [(GetError (EError "ECONNRESET"), Ok staged_stats);
                  (GetFinish 500, Ok staged_stats)]) (initial asset)).2 = 2%nat ∧
    fsFile (self (ensure_seq ([(GetFinish 404, Ok staged_stats)] ++
                 (GetFinish 200, Ok staged_stats) ::
                 [(GetError (EError "ECONNRESET"), Ok staged_stats);
                  (GetFinish 500, Ok staged_stats)]) (initial asset)).2) = Some f.
Proof.
  exact (ensure_seq_fetches_once [(GetFinish 404, Ok staged_stats)]
           (GetFinish 200, Ok staged_stats)
           [(GetError (EError "ECONNRESET"), Ok staged_stats);
            (GetFinish 500, Ok staged_stats)]
           (initial asset) eq_refl
           (Forall_cons_2 (λ e', fetch_ok e' = false) (GetFinish 404, Ok staged_stats) []
              eq_refl (Forall_nil_2 _))
           eq_refl).
Defined.

(** ** The life of the staging copy *)

Lemma destroyed_log e st :
  destroyed (log e st) = (destroyed st + if is_destroy e then 1 else 0)%nat.
Proof. unfold destroyed. rewrite trace_log, count_app. simpl. lia. Qed.

Ltac crunch :=
  unfold balanced, created_copies, destroyed, staged in *; simpl in *;
  rewrite ?count_app; simpl; try lia.

Lemma ensure_balanced get stat st :
  balanced st → balanced (run_ensureGotLocalCopy get stat st).2.
Proof.
  intros Hb. unfold run_ensureGotLocalCopy, ensureGotLocalCopy.
  destruct (fsFile (self st)) as [f|] eqn:Hf; [done|]. simpl.
  destruct get as [statusCode|err];
    [destruct (negb (statusCode =? 200)); [|destruct stat]|];
    crunch; rewrite Hf in Hb; lia.
Qed.

(** A byte-range call on the delegate neither creates nor destroys. *)
Lemma delegate_call_balanced {A} get stat (local : result A) c st :
  c ≠ CallDelete →
  balanced st →
  balanced (ensureGotLocalCopy get stat (λ r st,
              match r with
              | Err err => (Err (unsuccessful err), st)
              | Ok localFile => FSFile_call localFile c local pair st
              end) st).2.
Proof.
  intros Hc Hb. rewrite ensureGotLocalCopy_run.
  pose proof (ensure_balanced get stat st Hb) as Hb'.
  destruct (run_ensureGotLocalCopy get stat st) as [[err|f] st1]; simpl in *; [done|].
  unfold FSFile_call. simpl.
  unfold balanced, created_copies, staged in *. rewrite destroyed_log. simpl.
  destruct c; try done; lia.
Qed.

Lemma delete_balanced remote local st :
  balanced st → balanced (run_delete remote local st).2.
Proof.
  intros Hb. unfold run_delete, delete.
  destruct (String.eqb _ _); [|done]. unfold request.
  destruct remote as [err|[statusCode body]].
  - crunch.
  - destruct (negb (statusCode =? 200)); [crunch|].
    rewrite self_log.
    destruct (fsFile (self st)) as [f|] eqn:Hf.
    + unfold FSFile_delete. destruct local; crunch; rewrite Hf in Hb; lia.
    + crunch.
Qed.

Lemma setLastModified_fsFile `{DateAPI} ms this this' :
  setLastModified ms this = Normal this' → fsFile this' = fsFile this.
Proof.
  unfold setLastModified. destruct (isFile this); [|by intros [= <-]].
  destruct (content this !! JCR.JCR_CONTENT) as [[]|]; try discriminate.
  by intros [= <-].
Qed.

Lemma flush_balanced `{DateAPI} get stat0 del post stat st :
  balanced st → balanced (run_flush get stat0 del post stat st).2.
Proof.
  intros Hb. unfold run_flush, flush.
  destruct (fsFile (self st)) as [f|] eqn:Hf; [|done].
  rewrite (ensureGotLocalCopy_cached _ _ _ _ f Hf).
  destruct (String.eqb _ _); [|done]. unfold request, fs_stat.
  destruct post as [err|[statusCode body]]; [crunch|].
  destruct (negb (statusCode =? 200)); [crunch|].
  destruct stat as [err|stats]; [crunch|].
  destruct (setLastModified _ _) as [this'|] eqn:Hset.
  - apply setLastModified_fsFile in Hset. simpl in Hset.
    crunch. rewrite Hset, Hf. rewrite Hf in Hb. lia.
  - crunch.
Qed.

Lemma close_balanced local st :
  balanced st → balanced (run_close local st).2.
Proof.
  intros Hb. unfold run_close, close.
  destruct (fsFile (self st)) as [f|] eqn:Hf; [|done].
  unfold FSFile_delete. destruct local; crunch; rewrite Hf in Hb; lia.
Qed.

Lemma step_balanced `{DateAPI} c st : balanced st → balanced (step c st).
Proof.
  intros Hb. destruct c; simpl.
  - by apply ensure_balanced.
  - by apply (delegate_call_balanced get stat local (CallRead offset length position)).
  - by apply (delegate_call_balanced get stat local (CallWrite data position)).
  - by apply (delegate_call_balanced get stat local (CallSetLength length)).
  - by apply delete_balanced.
  - by apply flush_balanced.
  - by apply close_balanced.
Qed.

Lemma run_balanced `{DateAPI} cs st : balanced st → balanced (run cs st).
Proof.
  revert st. induction cs as [|c cs IH]; intros st Hb; [done|].
  simpl. apply IH. by apply step_balanced.
Qed.

Lemma close_unmaterializes local st : fsFile (self (run_close local st).2) = None.
Proof.
  unfold run_close, close. destruct (fsFile (self st)) as [f|] eqn:Hf; [|done].
  unfold FSFile_delete. by destruct local.
Qed.

Lemma delete_success_unmaterializes local body st :
  path (share_of (self st)) = "/content/dam" →
  fsFile (self (run_delete (Ok (200, body)) local st).2) = None.
Proof.
  intros Hp. unfold run_delete, delete. rewrite Hp. simpl.
  destruct (fsFile (self st)) as [f|] eqn:Hf; [|done].
  unfold FSFile_delete. by destruct local.
Qed.

Lemma initial_balanced this : balanced (initial this).
Proof. reflexivity. Qed.

(** C6, as stated, fails: a read after [close()] fetches again and stages
    a second copy; the handle ends with the copy created second, after two
    GET requests. *)
Lemma copy_recreated_after_close :
  let closed := @run IsoDate.api [read_ok; Do_close (Ok tt)] (initial asset) in
  let st := @run IsoDate.api reopen (initial asset) in
  fsFile (self closed) = None ∧
  created_copies closed = 1%nat ∧
  created_copies st = 2%nat ∧
  fetches st = 2%nat ∧
  fsFile (self st) =
    Some {| oid := 1; fs_filePath := "/tmp/1-cat.jpg"; fs_stats := staged_stats |}.
Proof. vm_compute. repeat split. Qed.

(** C6, amended: a handle has at most one staging copy at a time, created
    lazily, and over any sequence of calls the copies created are the
    copies handed to the delegate's delete plus the one staged, so that a
    copy is only ever created after the one before it was destroyed.
    There is no closed state: [close()] and a successful [delete()] leave
    the handle unmaterialized ([fsFile] null), and the next
    [ensureGotLocalCopy] whose fetch succeeds issues a GET and stages a
    new copy. *)
Theorem staging_copy_balance `{DateAPI} (cs : list call) (this : Handle) :
  let st := run cs (initial this) in
  created_copies st = (destroyed st + staged st)%nat ∧
  (staged st ≤ 1)%nat ∧
  (∀ local, fsFile (self (run_close local st).2) = None) ∧
  (∀ local body, path (share_of (self st)) = "/content/dam" →
     fsFile (self (run_delete (Ok (200, body)) local st).2) = None) ∧
  (∀ st1 get stat, fsFile (self st1) = None → fetch_ok (get, stat) = true →
     ∃ f, (run_ensureGotLocalCopy get stat st1).1 = Ok f ∧
          fsFile (self (run_ensureGotLocalCopy get stat st1).2) = Some f ∧
          oid f = created_copies st1 ∧
          created_copies (run_ensureGotLocalCopy get stat st1).2 = S (created_copies st1) ∧
          fetches (run_ensureGotLocalCopy get stat st1).2 = S (fetches st1)).
Proof.
  intros st. split; [|split; [|split; [|split]]].
  - apply run_balanced, initial_balanced.
  - unfold staged. destruct (fsFile (self st)); lia.
  - intros local. apply close_unmaterializes.
  - intros local body Hp. by apply delete_success_unmaterializes.
  - intros st1 get stat Hf Hok.
    destruct (ensure_success get stat st1 Hf Hok) as (f & H1 & H2 & H3 & H4).
    exists f. repeat split; try done. by apply ensure_unmaterialized_fetches.
Qed.

(** * Further properties of the handle *)

(** ** Paths outside the asset collection *)

Lemma not_dam_path this :
  path (share_of this) ≠ "/content/dam" →
  String.eqb (path (share_of this)) "/content/dam" = false.
Proof. intros Hne. by apply String.eqb_neq. Qed.

(** X1: a flush of a staged handle whose share is not [/content/dam]
    reports [STATUS_NOT_IMPLEMENTED]; it issues no request and changes
    nothing, the staging copy stays. *)
Theorem flush_not_implemented `{DateAPI} get stat0 del post stat st f :
  fsFile (self st) = Some f →
  path (share_of (self st)) ≠ "/content/dam" →
  run_flush get stat0 del post stat st =
    (Some (Err (SMBError consts.STATUS_NOT_IMPLEMENTED None)), st).
Proof.
  intros Hf Hp. unfold run_flush, flush. rewrite Hf.
  rewrite (ensureGotLocalCopy_cached _ _ _ _ f Hf).
  by rewrite (not_dam_path _ Hp).
Qed.

Lemma flush_not_implemented_witness :
  @run_flush IsoDate.api (GetFinish 200) (Ok staged_stats) (Ok (200, ""))
    (Ok (200, "")) (Ok staged_stats) staged_page =
    (Some (Err (SMBError consts.STATUS_NOT_IMPLEMENTED None)), staged_page).
Proof.
  refine (@flush_not_implemented IsoDate.api (GetFinish 200) (Ok staged_stats)
            (Ok (200, "")) (Ok (200, "")) (Ok staged_stats) staged_page page_copy
            eq_refl _).
  discriminate.
Defined.

(** X2: [delete()] on a handle whose share is not [/content/dam] reports
    [STATUS_NOT_IMPLEMENTED], whatever the outside world would answer; no
    request is issued, the delegate is not called and the staging copy
    stays. *)
Theorem delete_not_implemented remote local st :
  path (share_of (self st)) ≠ "/content/dam" →
  run_delete remote local st =
    (Err (SMBError consts.STATUS_NOT_IMPLEMENTED None), st).
Proof.
  intros Hp. unfold run_delete, delete. by rewrite (not_dam_path _ Hp).
Qed.

Lemma delete_not_implemented_witness :
  run_delete (Ok (200, "")) (Ok tt) staged_page =
    (Err (SMBError consts.STATUS_NOT_IMPLEMENTED None), staged_page).
Proof.
  refine (delete_not_implemented (Ok (200, "")) (Ok tt) staged_page _).
  discriminate.
Defined.

(** ** Deletion and close *)

(** X3: when the remote DELETE fails (error, or a status other than 200),
    [delete()] reports [STATUS_UNSUCCESSFUL] without the text of the
    failure; the one DELETE request is all that happened: the handle and
    its staging copy are untouched and the delegate is not called. *)
Theorem delete_failure_keeps_copy remote local st :
  path (share_of (self st)) = "/content/dam" →
  request_failed remote = true →
  run_delete remote local st =
    (Err (SMBError consts.STATUS_UNSUCCESSFUL None),
     log (flush_delete_request (self st)) st).
Proof.
  intros Hp Hfail. unfold run_delete, delete. rewrite Hp. simpl.
  unfold request. destruct remote as [err|[statusCode body]]; [done|].
  simpl in Hfail. by rewrite Hfail.
Qed.

Lemma delete_failure_keeps_copy_witness :
  run_delete (Ok (403, "Forbidden")) (Ok tt) staged_asset =
    (Err (SMBError consts.STATUS_UNSUCCESSFUL None),
     log (flush_delete_request (self staged_asset)) staged_asset).
Proof.
  exact (delete_failure_keeps_copy (Ok (403, "Forbidden")) (Ok tt) staged_asset
           eq_refl eq_refl).
Defined.

(** X4: [close()] of a staged handle calls the delegate's delete once and
    nothing else, reports to the caller exactly what the delegate
    answered, and drops the staging copy whether the delegate succeeded or
    not; the rest of the handle is unchanged. *)
Theorem close_staged local st f :
  fsFile (self st) = Some f →
  (run_close local st).1 = local ∧
  self (run_close local st).2 = set_fsFile None (self st) ∧
  trace (world (run_close local st).2) = (trace (world st) ++ [EvDelegate f CallDelete])%list.
Proof.
  intros Hf. unfold run_close, close. rewrite Hf. unfold FSFile_delete.
  by destruct local.
Qed.

Lemma close_staged_witness :
  (run_close (Err (EError "EBUSY")) staged_asset).1 = Err (EError "EBUSY") ∧
  self (run_close (Err (EError "EBUSY")) staged_asset).2
    = set_fsFile None (self staged_asset) ∧
  trace (world (run_close (Err (EError "EBUSY")) staged_asset).2)
    = (trace (world staged_asset) ++ [EvDelegate asset_copy CallDelete])%list.
Proof. exact (close_staged (Err (EError "EBUSY")) staged_asset asset_copy eq_refl). Defined.

(** X5: [close()] is idempotent: a second close succeeds and does
    nothing, whatever the first one reported. *)
Theorem close_twice local1 local2 st :
  run_close local2 (run_close local1 st).2 = (Ok tt, (run_close local1 st).2).
Proof.
  unfold run_close at 1. unfold close.
  by rewrite (close_unmaterializes local1 st).
Qed.

(** X6: nothing is flushed implicitly: after [close()], and after a
    [delete()] that succeeded, [flush()] reports success without any
    request; what was written to the staging copy and not flushed before is
    not sent. *)
Theorem flush_after_destroy `{DateAPI} get stat0 del post stat local body st :
  run_flush get stat0 del post stat (run_close local st).2
    = (Some (Ok tt), (run_close local st).2) ∧
  (path (share_of (self st)) = "/content/dam" →
   run_flush get stat0 del post stat (run_delete (Ok (200, body)) local st).2
     = (Some (Ok tt), (run_delete (Ok (200, body)) local st).2)).
Proof.
  split.
  - unfold run_flush. apply flush_unstaged, close_unmaterializes.
  - intros Hp. unfold run_flush. apply flush_unstaged.
    by apply delete_success_unmaterializes.
Qed.

(** ** Byte I/O on the staging copy *)

(** X7: on a staged handle, [read()], [write()] and [setLength()] fetch
    nothing: each makes the one call on the cached delegate, with the
    arguments it was given, and hands the delegate's answer to the caller;
    the handle itself (its length and timestamps) is unchanged. *)
Theorem staged_io_forwards get stat st f
    (localr : result (Z * Buffer)) (localw locals : result unit)
    (buffer data : Buffer) (offset length position wposition newLength : Z) :
  fsFile (self st) = Some f →
  run_read get stat localr buffer offset length position st
    = (localr, log (EvDelegate f (CallRead offset length position)) st) ∧
  run_write get stat localw data wposition st
    = (localw, log (EvDelegate f (CallWrite data wposition)) st) ∧
  run_setLength get stat locals newLength st
    = (locals, log (EvDelegate f (CallSetLength newLength)) st).
Proof.
  intros Hf. unfold run_read, read, run_write, write, run_setLength, setLength.
  by rewrite !(ensureGotLocalCopy_cached _ _ _ _ f Hf).
Qed.

Lemma staged_io_forwards_witness :
  run_read (GetError (EError "unused")) (Err (EError "unused")) (Ok (3, [])) [] 0 3 10
      staged_asset
    = (Ok (3, []), log (EvDelegate asset_copy (CallRead 0 3 10)) staged_asset) ∧
  run_write (GetError (EError "unused")) (Err (EError "unused")) (Ok tt) [] 5 staged_asset
    = (Ok tt, log (EvDelegate asset_copy (CallWrite [] 5)) staged_asset) ∧
  run_setLength (GetError (EError "unused")) (Err (EError "unused"))
      (Err (EError "ENOSPC")) 0 staged_asset
    = (Err (EError "ENOSPC"), log (EvDelegate asset_copy (CallSetLength 0)) staged_asset).
Proof.
  exact (staged_io_forwards (GetError (EError "unused")) (Err (EError "unused"))
           staged_asset asset_copy (Ok (3, [])) (Ok tt) (Err (EError "ENOSPC"))
           [] [] 0 3 10 5 0 eq_refl).
Defined.

(** The steps of a fetch that succeeds. *)
Lemma ensure_success_trace get stat st :
  fsFile (self st) = None →
  fetch_ok (get, stat) = true →
  ∃ f tmpFilePath stats,
    stat = Ok stats ∧
    f = {| oid := obj_counter (world st); fs_filePath := tmpFilePath; fs_stats := stats |} ∧
    (run_ensureGotLocalCopy get stat st).1 = Ok f ∧
    self (run_ensureGotLocalCopy get stat st).2 = set_fsFile (Some f) (self st) ∧
    trace (world (run_ensureGotLocalCopy get stat st).2) =
      (trace (world st) ++
         [EvCreateWriteStream tmpFilePath; fetch_request (self st);
          EvStat tmpFilePath])%list ∧
    (tmpFilePath ∈ files (world (run_ensureGotLocalCopy get stat st).2)).
Proof.
  intros Hf Hok. unfold run_ensureGotLocalCopy, ensureGotLocalCopy. rewrite Hf. simpl.
  destruct get as [statusCode|err]; [|done]. destruct stat as [err|stats]; [done|].
  simpl in Hok. rewrite Hok. simpl. eexists _, _, _.
  split; [reflexivity|]. split; [reflexivity|]. split; [reflexivity|].
  split; [reflexivity|]. rewrite <- !app_assoc. split; [reflexivity|].
  apply elem_of_union_l, elem_of_singleton. reflexivity.
Qed.

(** X8: [read()] and [write()] on an unmaterialized handle fetch first and
    call the delegate afterwards: temporary file, GET of the handle's URL,
    stat, and only then the byte-range call, on the copy just staged; the
    caller gets the delegate's answer. *)
Theorem io_fetches_then_delegates get stat st
    (localr : result (Z * Buffer)) (localw : result unit)
    (buffer data : Buffer) (offset length position wposition : Z) :
  fsFile (self st) = None →
  fetch_ok (get, stat) = true →
  ∃ f tmpFilePath,
    fs_filePath f = tmpFilePath ∧
    (run_read get stat localr buffer offset length position st).1 = localr ∧
    fsFile (self (run_read get stat localr buffer offset length position st).2) = Some f ∧
    trace (world (run_read get stat localr buffer offset length position st).2) =
      (trace (world st) ++
         [EvCreateWriteStream tmpFilePath; fetch_request (self st); EvStat tmpFilePath;
          EvDelegate f (CallRead offset length position)])%list ∧
    (run_write get stat localw data wposition st).1 = localw ∧
    fsFile (self (run_write get stat localw data wposition st).2) = Some f ∧
    trace (world (run_write get stat localw data wposition st).2) =
      (trace (world st) ++
         [EvCreateWriteStream tmpFilePath; fetch_request (self st); EvStat tmpFilePath;
          EvDelegate f (CallWrite data wposition)])%list.
Proof.
  intros Hf Hok.
  destruct (ensure_success_trace get stat st Hf Hok)
    as (f & tmp & stats & _ & Hfdef & Hr & Hself & Htr & _).
  exists f, tmp. split; [by rewrite Hfdef|].
  unfold run_read, read, run_write, write. rewrite !ensureGotLocalCopy_run, Hr.
  unfold FSFile_call. simpl. rewrite Hself, Htr, <- !app_assoc. simpl.
  by repeat split.
Qed.

Lemma io_fetches_then_delegates_witness :
  ∃ f tmpFilePath,
    fs_filePath f = tmpFilePath ∧
    (run_read (GetFinish 200) (Ok staged_stats) (Ok (3, [])) [] 0 3 10 (initial asset)).1
      = Ok (3, []) ∧
    fsFile (self (run_read (GetFinish 200) (Ok staged_stats) (Ok (3, [])) [] 0 3 10
                    (initial asset)).2) = Some f ∧
    trace (world (run_read (GetFinish 200) (Ok staged_stats) (Ok (3, [])) [] 0 3 10
                    (initial asset)).2) =
      (trace (world (initial asset)) ++
         [EvCreateWriteStream tmpFilePath; fetch_request (self (initial asset));
          EvStat tmpFilePath; EvDelegate f (CallRead 0 3 10)])%list ∧
    (run_write (GetFinish 200) (Ok staged_stats) (Ok tt) [] 5 (initial asset)).1 = Ok tt ∧
    fsFile (self (run_write (GetFinish 200) (Ok staged_stats) (Ok tt) [] 5
                    (initial asset)).2) = Some f ∧
    trace (world (run_write (GetFinish 200) (Ok staged_stats) (Ok tt) [] 5
                    (initial asset)).2) =
      (trace (world (initial asset)) ++
         [EvCreateWriteStream tmpFilePath; fetch_request (self (initial asset));
          EvStat tmpFilePath; EvDelegate f (CallWrite [] 5)])%list.
Proof.
  exact (io_fetches_then_delegates (GetFinish 200) (Ok staged_stats) (initial asset)
           (Ok (3, [])) (Ok tt) [] [] 0 3 10 5 eq_refl eq_refl).
Defined.

Lemma ensure_failure_delegate_calls get stat st :
  fsFile (self st) = None →
  fetch_ok (get, stat) = false →
  delegate_calls (run_ensureGotLocalCopy get stat st).2 = delegate_calls st.
Proof.
  intros Hf Hok. unfold run_ensureGotLocalCopy, ensureGotLocalCopy. rewrite Hf. simpl.
  destruct get as [statusCode|err];
    [destruct (negb (statusCode =? 200)); [|destruct stat]|];
    unfold delegate_calls; simpl; rewrite ?count_app; simpl; lia.
Qed.

(** X9: when the fetch of [read()], [write()] or [setLength()] does not
    succeed, the delegate is never called (there is none), the handle is
    left as it was, unmaterialized, and the caller gets an [SMBError] with
    [STATUS_UNSUCCESSFUL]; one GET was issued all the same, also for
    [setLength(0)]. *)
Theorem io_fetch_failure get stat st
    (localr : result (Z * Buffer)) (localw locals : result unit)
    (buffer data : Buffer) (offset length position wposition newLength : Z) :
  fsFile (self st) = None →
  fetch_ok (get, stat) = false →
  ∃ message st',
    run_read get stat localr buffer offset length position st
      = (Err (SMBError consts.STATUS_UNSUCCESSFUL message), st') ∧
    run_write get stat localw data wposition st
      = (Err (SMBError consts.STATUS_UNSUCCESSFUL message), st') ∧
    run_setLength get stat locals newLength st
      = (Err (SMBError consts.STATUS_UNSUCCESSFUL message), st') ∧
    self st' = self st ∧
    delegate_calls st' = delegate_calls st ∧
    fetches st' = S (fetches st).
Proof.
  intros Hf Hok.
  destruct (ensure_failure get stat st Hf Hok) as (err & Hr & Hself).
  exists (err_text err), (run_ensureGotLocalCopy get stat st).2.
  unfold run_read, read, run_write, write, run_setLength, setLength.
  rewrite !ensureGotLocalCopy_run, Hr.
  repeat split; try done.
  - by apply ensure_failure_delegate_calls.
  - by apply ensure_unmaterialized_fetches.
Qed.

Lemma io_fetch_failure_witness :
  ∃ message st',
    run_read (GetFinish 404) (Ok staged_stats) (Ok (3, [])) [] 0 3 10 (initial asset)
      = (Err (SMBError consts.STATUS_UNSUCCESSFUL message), st') ∧
    run_write (GetFinish 404) (Ok staged_stats) (Ok tt) [] 5 (initial asset)
      = (Err (SMBError consts.STATUS_UNSUCCESSFUL message), st') ∧
    run_setLength (GetFinish 404) (Ok staged_stats) (Ok tt) 0 (initial asset)
      = (Err (SMBError consts.STATUS_UNSUCCESSFUL message), st') ∧
    self st' = self (initial asset) ∧
    delegate_calls st' = delegate_calls (initial asset) ∧
    fetches st' = S (fetches (initial asset)).
Proof.
  exact (io_fetch_failure (GetFinish 404) (Ok staged_stats) (initial asset)
           (Ok (3, [])) (Ok tt) (Ok tt) [] [] 0 3 10 5 0 eq_refl eq_refl).
Defined.

(** ** What a failed fetch reports *)

(** X10: the text of the error that [read()] reports for a failed fetch:
    for a status other than 200 it is
    ['failed to spool <filePath> to <tmpFilePath>'], which names the
    temporary file just created and not the status; for a transport error
    and for a failed [fs.stat] it is the message of that error. *)
Theorem read_error_text st (stat : result Stats) (local : result (Z * Buffer))
    (buffer : Buffer) (offset length position : Z) :
  fsFile (self st) = None →
  (∀ statusCode, statusCode ≠ 200 →
     ∃ tmpFilePath rest,
       trace (world (run_read (GetFinish statusCode) stat local buffer offset length
                       position st).2)
         = (trace (world st) ++ EvCreateWriteStream tmpFilePath :: rest)%list ∧
       (run_read (GetFinish statusCode) stat local buffer offset length position st).1
         = Err (SMBError consts.STATUS_UNSUCCESSFUL
                  (Some ("failed to spool " +:+ filePath (self st) +:+ " to "
                           +:+ tmpFilePath)))) ∧
  (∀ message,
     (run_read (GetError (EError message)) stat local buffer offset length position st).1
       = Err (SMBError consts.STATUS_UNSUCCESSFUL (Some message))) ∧
  (∀ message,
     (run_read (GetFinish 200) (Err (EError message)) local buffer offset length
        position st).1
       = Err (SMBError consts.STATUS_UNSUCCESSFUL (Some message))).
Proof.
  intros Hf. split; [|split].
  - intros statusCode Hsc.
    unfold run_read, read, ensureGotLocalCopy. rewrite Hf. simpl.
    assert (negb (statusCode =? 200) = true) as ->.
    { apply negb_true_iff, Z.eqb_neq, Hsc. }
    unfold fs_unlink. simpl. eexists _, _. rewrite <- !app_assoc. simpl.
    split; reflexivity.
  - intros message. unfold run_read, read, ensureGotLocalCopy. by rewrite Hf.
  - intros message. unfold run_read, read, ensureGotLocalCopy. by rewrite Hf.
Qed.

Lemma read_error_text_witness :
  (run_read (GetFinish 404) (Ok staged_stats) (Ok (3, [])) [] 0 3 10 (initial asset)).1
    = Err (SMBError consts.STATUS_UNSUCCESSFUL
             (Some "failed to spool /photos/cat.jpg to /tmp/0-cat.jpg")) ∧
  (run_read (GetError (EError "socket hang up")) (Ok staged_stats) (Ok (3, [])) [] 0 3 10
     (initial asset)).1
    = Err (SMBError consts.STATUS_UNSUCCESSFUL (Some "socket hang up")).
Proof.
  destruct (read_error_text (initial asset) (Ok staged_stats) (Ok (3, [])) [] 0 3 10
              eq_refl) as (Hstatus & Herror & _).
  split; [|exact (Herror "socket hang up")].
  destruct (Hstatus 404 ltac:(discriminate)) as (tmpFilePath & rest & Htrace & Hread).
  vm_compute in Htrace. injection Htrace as Htmp _. subst tmpFilePath.
  exact Hread.
Defined.

(** X11: when the GET answers 200 and the [fs.stat] of the temporary file
    fails, [ensureGotLocalCopy] reports the stat's error as it is and
    stages nothing; the temporary file is not unlinked on this path and
    stays in the temporary directory. *)
Theorem stat_failure_leaves_tmp {R} (err : js_err) (cb : result FSFile → St → R) st :
  fsFile (self st) = None →
  ∃ tmpFilePath st',
    ensureGotLocalCopy (GetFinish 200) (Err err) cb st = cb (Err err) st' ∧
    self st' = self st ∧
    trace (world st') =
      (trace (world st) ++
         [EvCreateWriteStream tmpFilePath; fetch_request (self st);
          EvStat tmpFilePath])%list ∧
    (tmpFilePath ∈ files (world st')).
Proof.
  intros Hf. unfold ensureGotLocalCopy. rewrite Hf. simpl. unfold fs_stat.
  eexists _, _. split; [reflexivity|]. simpl. rewrite <- !app_assoc.
  split; [reflexivity|]. split; [reflexivity|].
  apply elem_of_union_l, elem_of_singleton. reflexivity.
Qed.

Lemma stat_failure_leaves_tmp_witness :
  ∃ tmpFilePath st',
    ensureGotLocalCopy (GetFinish 200) (Err (EError "EMFILE")) pair (initial asset)
      = (Err (EError "EMFILE"), st') ∧
    self st' = self (initial asset) ∧
    trace (world st') =
      (trace (world (initial asset)) ++
         [EvCreateWriteStream tmpFilePath; fetch_request (self (initial asset));
          EvStat tmpFilePath])%list ∧
    (tmpFilePath ∈ files (world st')).
Proof.
  exact (stat_failure_leaves_tmp (EError "EMFILE") pair (initial asset) eq_refl).
Defined.

(** ** More on [flush()] *)

(** X12: when the POST of a flush answers 200 and the [fs.stat] of the
    staged file then fails, the caller gets the stat's error as it is (it
    is not wrapped in an [SMBError]); the upload has happened, and the
    handle's length and timestamps are not refreshed. *)
Theorem flush_stat_failure `{DateAPI} get stat0 del body (err : js_err) st f :
  fsFile (self st) = Some f →
  path (share_of (self st)) = "/content/dam" →
  ∃ st',
    run_flush get stat0 del (Ok (200, body)) (Err err) st = (Some (Err err), st') ∧
    self st' = self st ∧
    trace (world st') =
      (trace (world st) ++
         [flush_delete_request (self st); flush_post_request (self st) f;
          EvStat (fs_filePath f)])%list.
Proof.
  intros Hf Hp. unfold run_flush.
  rewrite (flush_staged _ _ _ _ _ _ _ _ f Hf Hp). cbv zeta. simpl.
  eexists. split; [reflexivity|]. split; [reflexivity|].
  simpl. by rewrite <- !app_assoc.
Qed.

Lemma flush_stat_failure_witness :
  ∃ st',
    @run_flush IsoDate.api (GetFinish 200) (Ok staged_stats) (Ok (200, ""))
      (Ok (200, "")) (Err (EError "ENOENT")) staged_asset
      = (Some (Err (EError "ENOENT")), st') ∧
    self st' = self staged_asset ∧
    trace (world st') =
      (trace (world staged_asset) ++
         [flush_delete_request (self staged_asset);
          flush_post_request (self staged_asset) asset_copy;
          EvStat (fs_filePath asset_copy)])%list.
Proof.
  exact (@flush_stat_failure IsoDate.api (GetFinish 200) (Ok staged_stats) (Ok (200, ""))
           "" (EError "ENOENT") staged_asset asset_copy eq_refl eq_refl).
Defined.

(** X13: a file-typed handle whose content has no [jcr:content] object:
    [lastModified()] throws, and a flush that uploads successfully sets the
    length from the stat and then throws in [setLastModified], so that the
    caller's callback is never called. *)
Theorem flush_without_content_record `{DateAPI} get stat0 del body stats st f :
  fsFile (self st) = Some f →
  path (share_of (self st)) = "/content/dam" →
  isFile (self st) = true →
  content (self st) !! JCR.JCR_CONTENT = None →
  lastModified (self st) = TypeError ∧
  (run_flush get stat0 del (Ok (200, body)) (Ok stats) st).1 = None ∧
  self (run_flush get stat0 del (Ok (200, body)) (Ok stats) st).2
    = set_fileLength (st_size stats) (self st).
Proof.
  intros Hf Hp HF Hc. split.
  - unfold lastModified. by rewrite HF, Hc.
  - unfold run_flush. rewrite (flush_staged _ _ _ _ _ _ _ _ f Hf Hp). cbv zeta.
    simpl negb. cbv iota.
    set (st4 := on_self (set_fileLength (st_size stats)) (log _ (log _ (log _ st)))).
    change (self st4) with (set_fileLength (st_size stats) (self st)).
    unfold setLastModified. rewrite isFile_set_fileLength, HF. simpl content.
    by rewrite Hc.
Qed.

Lemma flush_without_content_record_witness :
  @lastModified IsoDate.api (self staged_bare_file) = TypeError ∧
  (@run_flush IsoDate.api (GetFinish 200) (Ok staged_stats) (Ok (200, ""))
     (Ok (200, "")) (Ok staged_stats) staged_bare_file).1 = None ∧
  self (@run_flush IsoDate.api (GetFinish 200) (Ok staged_stats) (Ok (200, ""))
          (Ok (200, "")) (Ok staged_stats) staged_bare_file).2
    = set_fileLength 1024 (self staged_bare_file).
Proof.
  exact (@flush_without_content_record IsoDate.api (GetFinish 200) (Ok staged_stats)
           (Ok (200, "")) "" staged_stats staged_bare_file bare_copy
           eq_refl eq_refl eq_refl eq_refl).
Defined.

(** X14: [flush()] never touches the staging copy and never fetches:
    whatever the outside world answers, the handle has the same [fsFile]
    afterwards, and no GET request, temporary file or delegate call was
    made. *)
Theorem flush_keeps_copy `{DateAPI} get stat0 del post stat st :
  fsFile (self (run_flush get stat0 del post stat st).2) = fsFile (self st) ∧
  fetches (run_flush get stat0 del post stat st).2 = fetches st ∧
  tmp_files_created (run_flush get stat0 del post stat st).2 = tmp_files_created st ∧
  delegate_calls (run_flush get stat0 del post stat st).2 = delegate_calls st.
Proof.
  unfold run_flush, flush, fetches, tmp_files_created, delegate_calls.
  destruct (fsFile (self st)) as [f|] eqn:Hf; [|simpl; by rewrite Hf].
  rewrite (ensureGotLocalCopy_cached _ _ _ _ f Hf).
  destruct (String.eqb _ _); [|simpl; by rewrite Hf]. unfold request, fs_stat.
  destruct post as [err|[statusCode body]];
    [|destruct (negb (statusCode =? 200)); [|destruct stat as [err|stats]]];
    try (simpl; rewrite ?count_app; simpl; rewrite Hf; repeat split; lia).
  destruct (setLastModified _ _) as [this'|] eqn:Hset.
  - apply setLastModified_fsFile in Hset. simpl in Hset.
    simpl. rewrite ?count_app. simpl. rewrite Hset, Hf. repeat split; lia.
  - simpl. rewrite ?count_app. simpl. rewrite Hf. repeat split; lia.
Qed.

(** ** Timestamps *)



(** X16: a handle whose content has no [jcr:primaryType] is neither a file
    nor a directory: its allocation size is 0 whatever its length,
    [lastModified()] is [created()] and does not throw even without a
    [jcr:content] record, and [setLastModified] does nothing. *)
Theorem untyped_handle `{DateAPI} (this : Handle) (ms : Z) :
  content this !! JCR.JCR_PRIMARYTYPE = None →
  isFile this = false ∧
  isDirectory this = false ∧
  JCRFile.classify (content this !! JCR.JCR_PRIMARYTYPE) = Other ∧
  allocationSize this = 0 ∧
  lastModified this = Normal (created this) ∧
  setLastModified ms this = Normal this.
Proof.
  intros Hpt.
  assert (isFile this = false) as HF by (unfold isFile; by rewrite Hpt).
  assert (isDirectory this = false) as HD by (unfold isDirectory; by rewrite Hpt).
  repeat split; try done.
  - by rewrite Hpt.
  - unfold allocationSize. by rewrite HF.
  - unfold lastModified. by rewrite HF.
  - unfold setLastModified. by rewrite HF.
Qed.

Lemma untyped_handle_witness :
  isFile untyped = false ∧
  isDirectory untyped = false ∧
  JCRFile.classify (content untyped !! JCR.JCR_PRIMARYTYPE) = Other ∧
  allocationSize untyped = 0 ∧
  @lastModified IsoDate.api untyped = Normal (@created IsoDate.api untyped) ∧
  @setLastModified IsoDate.api 0 untyped = Normal untyped.
Proof.
  exact (@untyped_handle IsoDate.api untyped 0 ltac:(vm_compute; reflexivity)).
Defined.

(** ** What sequences of calls keep *)

Lemma set_fsFile_id h : set_fsFile (fsFile h) h = h.
Proof. by destruct h. Qed.

Lemma set_fsFile_twice x y h : set_fsFile x (set_fsFile y h) = set_fsFile x h.
Proof. reflexivity. Qed.

(** [ensureGotLocalCopy] changes at most the [fsFile] of the handle. *)
Lemma ensure_self get stat st :
  ∃ x, self (run_ensureGotLocalCopy get stat st).2 = set_fsFile x (self st).
Proof.
  unfold run_ensureGotLocalCopy, ensureGotLocalCopy.
  destruct (fsFile (self st)) as [f|] eqn:Hf.
  - exists (Some f). by rewrite <- Hf, set_fsFile_id.
  - simpl. destruct get as [statusCode|err];
      [destruct (negb (statusCode =? 200)); [|destruct stat]|];
      try (exists None; simpl; by rewrite <- Hf, set_fsFile_id).
    by eexists.
Qed.

Lemma delegate_call_self {A} get stat (local : result A) c st :
  ∃ x, self (ensureGotLocalCopy get stat (λ r st,
               match r with
               | Err err => (Err (unsuccessful err), st)
               | Ok localFile => FSFile_call localFile c local pair st
               end) st).2 = set_fsFile x (self st).
Proof.
  rewrite ensureGotLocalCopy_run.
  destruct (ensure_self get stat st) as [x Hx]. exists x.
  by destruct (run_ensureGotLocalCopy get stat st) as [[err|f] st1].
Qed.

Lemma delete_self remote local st :
  ∃ x, self (run_delete remote local st).2 = set_fsFile x (self st).
Proof.
  unfold run_delete, delete.
  destruct (String.eqb _ _); [|exists (fsFile (self st)); by rewrite set_fsFile_id].
  unfold request. destruct remote as [err|[statusCode body]].
  - exists (fsFile (self st)). simpl. by rewrite set_fsFile_id.
  - destruct (negb (statusCode =? 200)).
    + exists (fsFile (self st)). simpl. by rewrite set_fsFile_id.
    + rewrite self_log. destruct (fsFile (self st)) as [f|] eqn:Hf.
      * exists None. unfold FSFile_delete. by destruct local.
      * exists None. simpl. by rewrite <- Hf, set_fsFile_id.
Qed.

Lemma close_self local st :
  ∃ x, self (run_close local st).2 = set_fsFile x (self st).
Proof.
  unfold run_close, close. destruct (fsFile (self st)) as [f|] eqn:Hf.
  - exists None. unfold FSFile_delete. by destruct local.
  - exists None. simpl. by rewrite <- Hf, set_fsFile_id.
Qed.

(** Every call but [flush] changes at most the [fsFile] of the handle. *)
Lemma step_self `{DateAPI} c st :
  is_flush c = false → ∃ x, self (step c st) = set_fsFile x (self st).
Proof.
  intros Hc. destruct c; simpl; try discriminate.
  - apply ensure_self.
  - apply (delegate_call_self get stat local (CallRead offset length position)).
  - apply (delegate_call_self get stat local (CallWrite data position)).
  - apply (delegate_call_self get stat local (CallSetLength length)).
  - apply delete_self.
  - apply close_self.
Qed.

Lemma same_node_refl h : same_node h h.
Proof. by repeat split. Qed.

Lemma same_node_trans h1 h2 h3 : same_node h1 h2 → same_node h2 h3 → same_node h1 h3.
Proof.
  intros (A1 & A2 & A3 & A4) (B1 & B2 & B3 & B4). repeat split; try congruence.
  intros k Hk. by rewrite B4, A4.
Qed.

Lemma same_node_set_fsFile x h : same_node h (set_fsFile x h).
Proof. by repeat split. Qed.

Lemma setLastModified_same_node `{DateAPI} ms this this' :
  setLastModified ms this = Normal this' → same_node this this'.
Proof.
  unfold setLastModified. destruct (isFile this); [|intros [= <-]; apply same_node_refl].
  destruct (content this !! JCR.JCR_CONTENT) as [[]|]; try discriminate.
  intros [= <-]. repeat split. intros k Hk. simpl. by rewrite lookup_insert_ne.
Qed.

Lemma flush_same_node `{DateAPI} get stat0 del post stat st :
  same_node (self st) (self (run_flush get stat0 del post stat st).2).
Proof.
  unfold run_flush, flush.
  destruct (fsFile (self st)) as [f|] eqn:Hf; [|apply same_node_refl].
  rewrite (ensureGotLocalCopy_cached _ _ _ _ f Hf).
  destruct (String.eqb _ _); [|apply same_node_refl]. unfold request, fs_stat.
  destruct post as [err|[statusCode body]]; [apply same_node_refl|].
  destruct (negb (statusCode =? 200)); [apply same_node_refl|].
  destruct stat as [err|stats]; [apply same_node_refl|].
  destruct (setLastModified _ _) as [this'|] eqn:Hset.
  - apply setLastModified_same_node in Hset. simpl in *.
    eapply same_node_trans; [|exact Hset]. by repeat split.
  - by repeat split.
Qed.

Lemma step_same_node `{DateAPI} c st : same_node (self st) (self (step c st)).
Proof.
  destruct (is_flush c) eqn:Hc.
  - destruct c; try discriminate. apply flush_same_node.
  - destruct (step_self c st Hc) as [x ->]. apply same_node_set_fsFile.
Qed.

Lemma run_same_node `{DateAPI} cs st : same_node (self st) (self (run cs st)).
Proof.
  revert st. induction cs as [|c cs IH]; intros st; [apply same_node_refl|].
  simpl. eapply same_node_trans; [apply step_same_node | apply IH].
Qed.

(** X17: whatever is called on a handle and whatever the outside world
    answers, the handle stays the same node: its path, file name and share
    never change, and of its content only the [jcr:content] record may; so
    [isFile()], [isDirectory()] and [created()] answer the same all along. *)
Theorem run_keeps_node `{DateAPI} (cs : list call) (st : St) :
  filePath (self (run cs st)) = filePath (self st) ∧
  fileName (self (run cs st)) = fileName (self st) ∧
  tree (self (run cs st)) = tree (self st) ∧
  (∀ k, k ≠ JCR.JCR_CONTENT → content (self (run cs st)) !! k = content (self st) !! k) ∧
  isFile (self (run cs st)) = isFile (self st) ∧
  isDirectory (self (run cs st)) = isDirectory (self st) ∧
  created (self (run cs st)) = created (self st).
Proof.
  destruct (run_same_node cs st) as (H1 & H2 & H3 & H4).
  repeat split; try done.
  - unfold isFile. rewrite H4; [done|discriminate].
  - unfold isDirectory. rewrite H4; [done|discriminate].
  - unfold created. rewrite H4; [done|discriminate].
Qed.

Lemma run_app `{DateAPI} cs1 cs2 st : run (cs1 ++ cs2) st = run cs2 (run cs1 st).
Proof. unfold run. apply foldl_app. Qed.




(** ** Accounting for the external calls *)

Ltac tally :=
  unfold accounted, tmp_files_created, fetches, created_copies, uploads in *; simpl in *;
  rewrite ?count_app; simpl; try lia.

Lemma ensure_accounted get stat st :
  accounted st → accounted (run_ensureGotLocalCopy get stat st).2.
Proof.
  intros Ha. unfold run_ensureGotLocalCopy, ensureGotLocalCopy.
  destruct (fsFile (self st)); [done|]. simpl.
  destruct get as [statusCode|err];
    [destruct (negb (statusCode =? 200)); [|destruct stat]|]; tally.
Qed.

Lemma delegate_call_accounted {A} get stat (local : result A) c st :
  accounted st →
  accounted (ensureGotLocalCopy get stat (λ r st,
               match r with
               | Err err => (Err (unsuccessful err), st)
               | Ok localFile => FSFile_call localFile c local pair st
               end) st).2.
Proof.
  intros Ha. rewrite ensureGotLocalCopy_run.
  pose proof (ensure_accounted get stat st Ha) as Ha'.
  destruct (run_ensureGotLocalCopy get stat st) as [[err|f] st1]; simpl in *; [done|].
  unfold FSFile_call. tally.
Qed.

Lemma delete_accounted remote local st :
  accounted st → accounted (run_delete remote local st).2.
Proof.
  intros Ha. unfold run_delete, delete.
  destruct (String.eqb _ _); [|done]. unfold request.
  destruct remote as [err|[statusCode body]]; [tally|].
  destruct (negb (statusCode =? 200)); [tally|].
  rewrite self_log. destruct (fsFile (self st)) as [f|]; [|tally].
  unfold FSFile_delete. destruct local; tally.
Qed.

Lemma flush_accounted `{DateAPI} get stat0 del post stat st :
  accounted st → accounted (run_flush get stat0 del post stat st).2.
Proof.
  intros Ha. unfold run_flush, flush.
  destruct (fsFile (self st)) as [f|] eqn:Hf; [|done].
  rewrite (ensureGotLocalCopy_cached _ _ _ _ f Hf).
  destruct (String.eqb _ _); [|done]. unfold request, fs_stat.
  destruct post as [err|[statusCode body]]; [tally|].
  destruct (negb (statusCode =? 200)); [tally|].
  destruct stat as [err|stats]; [tally|].
  destruct (setLastModified _ _); tally.
Qed.

Lemma close_accounted local st :
  accounted st → accounted (run_close local st).2.
Proof.
  intros Ha. unfold run_close, close.
  destruct (fsFile (self st)) as [f|]; [|done].
  unfold FSFile_delete. destruct local; tally.
Qed.

Lemma step_accounted `{DateAPI} c st : accounted st → accounted (step c st).
Proof.
  intros Ha. destruct c; simpl.
  - by apply ensure_accounted.
  - by apply (delegate_call_accounted get stat local (CallRead offset length position)).
  - by apply (delegate_call_accounted get stat local (CallWrite data position)).
  - by apply (delegate_call_accounted get stat local (CallSetLength length)).
  - by apply delete_accounted.
  - by apply flush_accounted.
  - by apply close_accounted.
Qed.

Lemma run_accounted `{DateAPI} cs st : accounted st → accounted (run cs st).
Proof.
  revert st. induction cs as [|c cs IH]; intros st Ha; [done|].
  simpl. apply IH. by apply step_accounted.
Qed.

(** X19: over any sequence of calls on a new handle, a temporary file is
    created exactly when a GET is issued, and a staging copy is only ever
    created from a fetch: the temporary files created are as many as the
    GET requests, and the staging copies created are at most as many. *)
Theorem fetch_accounting `{DateAPI} (cs : list call) (this : Handle) :
  tmp_files_created (run cs (initial this)) = fetches (run cs (initial this)) ∧
  (created_copies (run cs (initial this)) ≤ fetches (run cs (initial this)))%nat.
Proof. apply run_accounted. split; [reflexivity | unfold created_copies; simpl; lia]. Qed.

(** The calls that are neither [flush] nor [delete] issue no POST and no
    DELETE request. *)
Lemma ensure_uploads get stat st :
  uploads (run_ensureGotLocalCopy get stat st).2 = uploads st.
Proof.
  unfold run_ensureGotLocalCopy, ensureGotLocalCopy.
  destruct (fsFile (self st)); [done|]. simpl.
  destruct get as [statusCode|err];
    [destruct (negb (statusCode =? 200)); [|destruct stat]|]; tally.
Qed.

Lemma delegate_call_uploads {A} get stat (local : result A) c st :
  uploads (ensureGotLocalCopy get stat (λ r st,
             match r with
             | Err err => (Err (unsuccessful err), st)
             | Ok localFile => FSFile_call localFile c local pair st
             end) st).2 = uploads st.
Proof.
  rewrite ensureGotLocalCopy_run.
  pose proof (ensure_uploads get stat st) as Hu.
  destruct (run_ensureGotLocalCopy get stat st) as [[err|f] st1]; simpl in *; [done|].
  unfold FSFile_call. rewrite <- Hu. tally.
Qed.

Lemma close_uploads local st : uploads (run_close local st).2 = uploads st.
Proof.
  unfold run_close, close. destruct (fsFile (self st)) as [f|]; [|done].
  unfold FSFile_delete. destruct local; tally.
Qed.

Lemma step_uploads `{DateAPI} c st :
  is_flush_or_delete c = false → uploads (step c st) = uploads st.
Proof.
  intros Hc. destruct c; simpl; try discriminate.
  - apply ensure_uploads.
  - apply (delegate_call_uploads get stat local (CallRead offset length position)).
  - apply (delegate_call_uploads get stat local (CallWrite data position)).
  - apply (delegate_call_uploads get stat local (CallSetLength length)).
  - apply close_uploads.
Qed.

(** X20: the remote object is only ever written by [flush()] and
    [delete()]: a sequence of calls without them (reads, writes,
    truncations, closes) issues no POST and no DELETE request, so that a
    write followed by [close()] never reaches the remote store. *)
Theorem only_flush_and_delete_upload `{DateAPI} (cs : list call) (st : St) :
  forallb (λ c, negb (is_flush_or_delete c)) cs = true →
  uploads (run cs st) = uploads st.
Proof.
  revert st. induction cs as [|c cs IH]; intros st Hcs; [done|].
  simpl in Hcs. apply andb_true_iff in Hcs as [Hc Hcs]. apply negb_true_iff in Hc.
  simpl. rewrite (IH _ Hcs). by apply step_uploads.
Qed.

Lemma only_flush_and_delete_upload_witness :
  uploads (@run IsoDate.api edit_without_flush (initial asset)) = uploads (initial asset).
Proof.
  exact (@only_flush_and_delete_upload IsoDate.api edit_without_flush (initial asset)
           eq_refl).
Defined.

Lemma uploads_log e st :
  uploads (log e st) = (uploads st + if is_upload e then 1 else 0)%nat.
Proof. unfold uploads. rewrite trace_log, count_app. simpl. lia. Qed.

Lemma flush_staged_uploads `{DateAPI} get stat0 del post stat st f :
  fsFile (self st) = Some f →
  path (share_of (self st)) = "/content/dam" →
  uploads (run_flush get stat0 del post stat st).2 = (uploads st + 2)%nat.
Proof.
  intros Hf Hp. unfold run_flush.
  rewrite (flush_staged _ _ _ _ _ _ _ _ f Hf Hp). cbv zeta.
  destruct post as [err|[statusCode body]]; [unfold uploads; tally|].
  destruct (negb (statusCode =? 200)); [unfold uploads; tally|].
  destruct stat as [err|stats]; [unfold uploads; tally|].
  destruct (setLastModified _ _); unfold uploads; tally.
Qed.

(** X21: a flush of a staged handle under [/content/dam] replaces the
    remote asset every time, whether or not anything was written since the
    fetch or the flush before: each flush issues one DELETE and one POST,
    and a second flush right after issues them again. *)
Theorem flush_uploads_every_time `{DateAPI} get stat0 del post stat
    get' stat0' del' post' stat' st f :
  fsFile (self st) = Some f →
  path (share_of (self st)) = "/content/dam" →
  uploads (run_flush get stat0 del post stat st).2 = (uploads st + 2)%nat ∧
  uploads (run_flush get' stat0' del' post' stat'
             (run_flush get stat0 del post stat st).2).2 = (uploads st + 4)%nat.
Proof.
  intros Hf Hp.
  pose proof (flush_staged_uploads get stat0 del post stat st f Hf Hp) as H1.
  split; [exact H1|].
  set (st1 := (run_flush get stat0 del post stat st).2) in *.
  assert (fsFile (self st1) = Some f) as Hf1.
  { subst st1. unfold run_flush, flush. rewrite Hf.
    rewrite (ensureGotLocalCopy_cached _ _ _ _ f Hf), Hp. simpl.
    unfold request, fs_stat.
    destruct post as [err|[statusCode body]]; [done|].
    destruct (negb (statusCode =? 200)); [done|].
    destruct stat as [err|stats]; [done|].
    destruct (setLastModified _ _) as [this'|] eqn:Hset; [|done].
    apply setLastModified_fsFile in Hset. simpl in *. by rewrite Hset. }
  assert (path (share_of (self st1)) = "/content/dam") as Hp1.
  { destruct (flush_same_node get stat0 del post stat st) as (_ & _ & Htree & _).
    subst st1. unfold share_of in *. by rewrite Htree. }
  rewrite (flush_staged_uploads get' stat0' del' post' stat' st1 f Hf1 Hp1). lia.
Qed.

Lemma flush_uploads_every_time_witness :
  uploads (@run_flush IsoDate.api (GetFinish 200) (Ok staged_stats) (Ok (200, ""))
             (Ok (200, "")) (Ok staged_stats) staged_asset).2
    = (uploads staged_asset + 2)%nat ∧
  uploads (@run_flush IsoDate.api (GetFinish 200) (Ok staged_stats) (Ok (404, ""))
             (Ok (200, "")) (Ok staged_stats)
             (@run_flush IsoDate.api (GetFinish 200) (Ok staged_stats) (Ok (200, ""))
                (Ok (200, "")) (Ok staged_stats) staged_asset).2).2
    = (uploads staged_asset + 4)%nat.
Proof.
  exact (@flush_uploads_every_time IsoDate.api
           (GetFinish 200) (Ok staged_stats) (Ok (200, "")) (Ok (200, "")) (Ok staged_stats)
           (GetFinish 200) (Ok staged_stats) (Ok (404, "")) (Ok (200, "")) (Ok staged_stats)
           staged_asset asset_copy eq_refl eq_refl).
Defined.

(** X22: a [delete()] under [/content/dam] whose DELETE answers 200 never
    fetches: on a staged handle it issues the DELETE request and then
    calls the delegate's delete on the staged copy, on an unmaterialized
    handle the DELETE request is all it does; either way the handle ends
    without a staging copy and is otherwise unchanged. *)
Theorem delete_success_steps (local : result unit) (body : string) (st : St) :
  path (share_of (self st)) = "/content/dam" →
  (run_delete (Ok (200, body)) local st).1 = Ok tt ∧
  self (run_delete (Ok (200, body)) local st).2 = set_fsFile None (self st) ∧
  trace (world (run_delete (Ok (200, body)) local st).2) =
    (trace (world st) ++
       flush_delete_request (self st) ::
       match fsFile (self st) with
       | Some f => [EvDelegate f CallDelete]
       | None => []
       end)%list.
Proof.
  intros Hp. unfold run_delete, delete. rewrite Hp. simpl.
  destruct (fsFile (self st)) as [f|] eqn:Hf.
  - unfold FSFile_delete. destruct local; simpl; by rewrite <- app_assoc.
  - simpl. by rewrite <- Hf, set_fsFile_id.
Qed.

Lemma delete_success_steps_witness :
  (run_delete (Ok (200, "")) (Ok tt) (initial asset)).1 = Ok tt ∧
  self (run_delete (Ok (200, "")) (Ok tt) (initial asset)).2
    = set_fsFile None (self (initial asset)) ∧
  trace (world (run_delete (Ok (200, "")) (Ok tt) (initial asset)).2) =
    (trace (world (initial asset)) ++
       flush_delete_request (self (initial asset)) ::
       match fsFile (self (initial asset)) with
       | Some f => [EvDelegate f CallDelete]
       | None => []
       end)%list.
Proof. exact (delete_success_steps (Ok tt) "" (initial asset) eq_refl). Defined.
